(** * system_stats: the network information scan (network_info.c)

    A shallow embedding of [ReadFileContent], the nine counter readers and
    [ReadNetworkInformations], together with the properties of the scan that
    the design document states.

    The C code runs inside a PostgreSQL backend.  Its effects are modelled by
    a state-and-exception monad over a [world] that holds the server log, the
    tuple store handed in by the caller and the operating-system resources
    currently held.  The host itself (the interface list, the address
    conversion and the files under /sys/class/net) is a read-only
    environment [host_env]. *)

From Stdlib Require Import ZArith List String Ascii Bool Lia.
From Stdlib Require Import DecimalString DecimalPos DecimalN.
Import ListNotations.

Local Open Scope string_scope.
Local Open Scope list_scope.
Local Open Scope Z_scope.

(** ** C integers and C strings *)

Module C.

Definition LLONG_MAX : Z := 2 ^ 63 - 1.
Definition LLONG_MIN : Z := - 2 ^ 63.
Definition UINT64_MOD : Z := 2 ^ 64.

(** Conversion of an integer to [uint64]: reduction modulo 2^64. *)
Definition to_uint64 (z : Z) : Z := z mod UINT64_MOD.

(** Conversion of an integer to [int64]: two's complement wrap-around. *)
Definition to_int64 (z : Z) : Z :=
  let u := z mod UINT64_MOD in
  if u <=? LLONG_MAX then u else u - UINT64_MOD.

Definition NUL : ascii := Ascii.zero.

Definition is_nul (c : ascii) : bool := (nat_of_ascii c =? 0)%nat.

(** <ctype.h>, "C" locale. *)
Definition isspace (c : ascii) : bool :=
  let n := nat_of_ascii c in
  ((n =? 32) || ((9 <=? n) && (n <=? 13)))%nat.

Definition isdigit (c : ascii) : bool :=
  let n := nat_of_ascii c in
  ((48 <=? n) && (n <=? 57))%nat.

Definition digit_val (c : ascii) : Z := Z.of_nat (nat_of_ascii c) - 48.

(** A [string] of the model stands for the characters of a C string up to,
    and without, its terminating NUL. *)
Definition is_cstring (s : string) : bool :=
  forallb (fun c => negb (is_nul c)) (list_ascii_of_string s).

Definition strlen (s : string) : nat := String.length s.

(** A [char buf[N]] is a list of N characters. *)
Definition memset0 (n : nat) : list ascii := repeat NUL n.

(** [memcpy(dst, src, n)]: the first [n] characters of [dst] are replaced
    by those of [src]. *)
Definition memcpy (dst src : list ascii) (n : nat) : list ascii :=
  firstn n src ++ skipn n dst.

(** Reading a buffer as a C string: the characters before the first NUL. *)
Fixpoint c_str (buf : list ascii) : string :=
  match buf with
  | [] => EmptyString
  | c :: rest => if is_nul c then EmptyString else String c (c_str rest)
  end.

(** Writing a C string with its terminator at the start of a buffer, as
    [strcpy] and the library routines that fill a caller's buffer do. *)
Definition put_cstring (buf : list ascii) (s : string) : list ascii :=
  list_ascii_of_string s ++ NUL :: skipn (S (String.length s)) buf.

(** [snprintf(dst, n, "%s", s)]: at most [n - 1] characters are kept. *)
Definition snprintf_s (n : nat) (s : string) : string :=
  substring 0 (n - 1) s.

(** [atoll] is [strtoll(nptr, NULL, 10)]: white space is skipped, an
    optional sign is read, then the longest run of decimal digits; a value
    out of the range of [long long] is clamped to the nearest bound. *)
Fixpoint skip_space (s : string) : string :=
  match s with
  | String c rest => if isspace c then skip_space rest else s
  | EmptyString => s
  end.

Fixpoint digits_acc (s : string) (acc : Z) : Z :=
  match s with
  | String c rest =>
      if isdigit c then digits_acc rest (10 * acc + digit_val c) else acc
  | EmptyString => acc
  end.

Definition clamp_llong (z : Z) : Z :=
  if z <? LLONG_MIN then LLONG_MIN
  else if LLONG_MAX <? z then LLONG_MAX
  else z.

Definition atoll (nptr : string) : Z :=
  match skip_space nptr with
  | String "-" rest => clamp_llong (- digits_acc rest 0)
  | String "+" rest => clamp_llong (digits_acc rest 0)
  | s => clamp_llong (digits_acc s 0)
  end.

(** The line [getline] delivers: everything up to and including the first
    newline, or the whole remaining content when there is none. *)
Fixpoint first_line (content : string) : string :=
  match content with
  | EmptyString => EmptyString
  | String c rest =>
      if (nat_of_ascii c =? 10)%nat then String c EmptyString
      else String c (first_line rest)
  end.

End C.

(** ** The PostgreSQL services the file uses *)

Module Pg.

Definition MAXPGPATH : nat := 1024.

(** elog.h: severity levels.  A report below [ERROR] (DEBUG, LOG, NOTICE,
    WARNING) is sent and the call returns.  A report at [ERROR] or above
    does not return to the code that raised it: [ereport] finishes with a
    [siglongjmp] to the enclosing error handler of the backend, which aborts
    the current statement.  Statements that follow an [ereport(ERROR, ...)]
    in the source are therefore never executed. *)
Definition WARNING : Z := 19.
Definition ERROR : Z := 21.

Inductive sqlstate : Type :=
| ERRCODE_INVALID_PARAMETER_VALUE
| errcode_for_file_access.

Record ErrorData : Type := mkErrorData {
  elevel : Z;
  sqlerrcode : sqlstate;
  message : string
}.

(** A [Datum] is one machine word: either a pointer to a [text] value or
    an integer passed by value, kept as its unsigned 64-bit pattern. *)
Inductive Datum : Type :=
| TextDatum (s : string)
| Int64Datum (w : Z).

Definition CStringGetTextDatum (buf : list ascii) : Datum :=
  TextDatum (C.c_str buf).

(** [Int64GetDatumFast(X)] takes an [int64]; the [uint64] counters are
    converted to it on the way in. *)
Definition Int64GetDatumFast (x : Z) : Datum :=
  Int64Datum (C.to_uint64 (C.to_int64 x)).

End Pg.

(** ** The backend state and the host *)

(** system_stats.h: the columns of the network information row. *)
Inductive Anum : Type :=
| Anum_net_interface_name
| Anum_net_ipv4_address
| Anum_net_ipv6_address
| Anum_net_speed_mbps
| Anum_net_tx_bytes
| Anum_net_tx_packets
| Anum_net_tx_errors
| Anum_net_tx_dropped
| Anum_net_rx_bytes
| Anum_net_rx_packets
| Anum_net_rx_errors
| Anum_net_rx_dropped.

Definition Anum_eqb (a b : Anum) : bool :=
  match a, b with
  | Anum_net_interface_name, Anum_net_interface_name
  | Anum_net_ipv4_address, Anum_net_ipv4_address
  | Anum_net_ipv6_address, Anum_net_ipv6_address
  | Anum_net_speed_mbps, Anum_net_speed_mbps
  | Anum_net_tx_bytes, Anum_net_tx_bytes
  | Anum_net_tx_packets, Anum_net_tx_packets
  | Anum_net_tx_errors, Anum_net_tx_errors
  | Anum_net_tx_dropped, Anum_net_tx_dropped
  | Anum_net_rx_bytes, Anum_net_rx_bytes
  | Anum_net_rx_packets, Anum_net_rx_packets
  | Anum_net_rx_errors, Anum_net_rx_errors
  | Anum_net_rx_dropped, Anum_net_rx_dropped => true
  | _, _ => false
  end.

(** The row [tuplestore_putvalues] forms from [values] and [nulls]: a column
    whose null flag is set holds no value. *)
Record HeapTuple : Type := mkTuple {
  t_interface_name : option Pg.Datum;
  t_ipv4_address : option Pg.Datum;
  t_ipv6_address : option Pg.Datum;
  t_speed_mbps : option Pg.Datum;
  t_tx_bytes : option Pg.Datum;
  t_tx_packets : option Pg.Datum;
  t_tx_errors : option Pg.Datum;
  t_tx_dropped : option Pg.Datum;
  t_rx_bytes : option Pg.Datum;
  t_rx_packets : option Pg.Datum;
  t_rx_errors : option Pg.Datum;
  t_rx_dropped : option Pg.Datum
}.

Definition column (t : HeapTuple) (a : Anum) : option Pg.Datum :=
  match a with
  | Anum_net_interface_name => t_interface_name t
  | Anum_net_ipv4_address => t_ipv4_address t
  | Anum_net_ipv6_address => t_ipv6_address t
  | Anum_net_speed_mbps => t_speed_mbps t
  | Anum_net_tx_bytes => t_tx_bytes t
  | Anum_net_tx_packets => t_tx_packets t
  | Anum_net_tx_errors => t_tx_errors t
  | Anum_net_tx_dropped => t_tx_dropped t
  | Anum_net_rx_bytes => t_rx_bytes t
  | Anum_net_rx_packets => t_rx_packets t
  | Anum_net_rx_errors => t_rx_errors t
  | Anum_net_rx_dropped => t_rx_dropped t
  end.

Definition heap_form_tuple (values : Anum -> Pg.Datum) (nulls : Anum -> bool)
  : HeapTuple :=
  let att a := if nulls a then None else Some (values a) in
  {| t_interface_name := att Anum_net_interface_name;
     t_ipv4_address := att Anum_net_ipv4_address;
     t_ipv6_address := att Anum_net_ipv6_address;
     t_speed_mbps := att Anum_net_speed_mbps;
     t_tx_bytes := att Anum_net_tx_bytes;
     t_tx_packets := att Anum_net_tx_packets;
     t_tx_errors := att Anum_net_tx_errors;
     t_tx_dropped := att Anum_net_tx_dropped;
     t_rx_bytes := att Anum_net_rx_bytes;
     t_rx_packets := att Anum_net_rx_packets;
     t_rx_errors := att Anum_net_rx_errors;
     t_rx_dropped := att Anum_net_rx_dropped |}.

(** What a call can change. *)
Record world : Type := mkWorld {
  elog : list Pg.ErrorData;     (* reports sent by ereport, oldest first *)
  tupstore : list HeapTuple;    (* rows in the Tuplestorestate, oldest first *)
  open_files : nat;             (* streams opened by fopen and not yet closed *)
  line_bufs : nat;              (* buffers allocated by getline and not yet freed *)
  live_ifaddrs : nat            (* lists made by getifaddrs and not yet freed *)
}.

(** <sys/socket.h>, <ifaddrs.h>. *)
Definition AF_INET : Z := 2.
Definition AF_INET6 : Z := 10.
Definition AF_PACKET : Z := 17.
Definition EAI_OVERFLOW : Z := -12.

Record sockaddr : Type := mkSockaddr {
  sa_family : Z;
  sa_data : list Z
}.

(** One node of the list built by [getifaddrs]; [ifa_next] is the tail of
    the Rocq list, and a NULL [ifa_addr] is [None]. *)
Record ifaddrs : Type := mkIfaddrs {
  ifa_name : string;
  ifa_addr : option sockaddr
}.

(** The host as the scan sees it.
    - [os_getifaddrs]: the interface list, or [None] when the call returns -1;
    - [os_getnameinfo]: the return code of the conversion of an address with
      NI_NUMERICHOST and the text it delivers when the code is 0;
    - [os_gai_strerror]: the text of a conversion error code;
    - [os_file]: the content of the file behind a path, or [None] when
      [fopen] fails.
    The host is taken as it stands while one scan runs: a path has one
    content for the whole scan.  The code opens every counter file anew at
    every node, so on a live system two reads of one file within a scan may
    differ; nothing below speaks about files that change during a scan. *)
Record host_env : Type := mkHost {
  os_getifaddrs : option (list ifaddrs);
  os_getnameinfo : sockaddr -> Z * string;
  os_gai_strerror : Z -> string;
  os_file : string -> option string
}.

(** ** The monad of backend code *)

(** A call either returns, or is left by the non-local exit of an [ERROR]
    report; the world is threaded through both. *)
Inductive outcome (A : Type) : Type :=
| Ret (a : A)
| Raise.
Arguments Ret {A} a.
Arguments Raise {A}.

Definition M (A : Type) : Type := world -> outcome A * world.

Definition ret {A} (a : A) : M A := fun w => (Ret a, w).

Definition bind {A B} (m : M A) (k : A -> M B) : M B :=
  fun w =>
    match m w with
    | (Ret a, w') => k a w'
    | (Raise, w') => (Raise, w')
    end.

Declare Scope backend_scope.
Delimit Scope backend_scope with backend.
Notation "x <- m ;; k" := (bind m (fun x => k))
  (at level 61, m at next level, right associativity) : backend_scope.
Notation "m ;; k" := (bind m (fun _ => k))
  (at level 61, right associativity) : backend_scope.
Local Open Scope backend_scope.

Definition log_report (e : Pg.ErrorData) : M unit := fun w =>
  (Ret tt, {| elog := elog w ++ [e]; tupstore := tupstore w;
              open_files := open_files w; line_bufs := line_bufs w;
              live_ifaddrs := live_ifaddrs w |}).

Definition throw {A} : M A := fun w => (Raise, w).

(** [ereport(elevel, (errcode(..), errmsg(..)))]: the report is sent; at
    [ERROR] and above the call is left through the non-local exit, below it
    the call returns. *)
Definition ereport (lvl : Z) (code : Pg.sqlstate) (msg : string) : M unit :=
  log_report (Pg.mkErrorData lvl code msg) ;;
  if Pg.ERROR <=? lvl then throw else ret tt.

Definition tuplestore_putvalues (values : Anum -> Pg.Datum)
    (nulls : Anum -> bool) : M unit := fun w =>
  (Ret tt, {| elog := elog w;
              tupstore := tupstore w ++ [heap_form_tuple values nulls];
              open_files := open_files w; line_bufs := line_bufs w;
              live_ifaddrs := live_ifaddrs w |}).

(** ** network_info.c *)

(** The locals of [ReadNetworkInformations] that live across the iterations
    of its loop.  [values] is filled completely before each use and is built
    where it is used. *)
Record frame : Type := mkFrame {
  nulls : Anum -> bool;
  interface_name : list ascii;
  ipv4_address : list ascii;
  ipv6_address : list ascii;
  speed_mbps : Z;
  tx_bytes : Z;
  tx_packets : Z;
  tx_errors : Z;
  tx_dropped : Z;
  rx_bytes : Z;
  rx_packets : Z;
  rx_errors : Z;
  rx_dropped : Z;
  host : list ascii
}.

Definition set_null (nulls : Anum -> bool) (a : Anum) : Anum -> bool :=
  fun b => if Anum_eqb a b then true else nulls b.

Section NetworkInfo.

Variable os : host_env.

(** *** libc calls *)

(** [fopen(file_name, "r")]: the stream, here the content it will deliver,
    or NULL. *)
Definition fopen (file_name : string) : M (option string) := fun w =>
  match os_file os file_name with
  | Some content =>
      (Ret (Some content),
       {| elog := elog w; tupstore := tupstore w;
          open_files := S (open_files w); line_bufs := line_bufs w;
          live_ifaddrs := live_ifaddrs w |})
  | None => (Ret None, w)
  end.

Definition fclose (fp : string) : M unit := fun w =>
  (Ret tt, {| elog := elog w; tupstore := tupstore w;
              open_files := Nat.pred (open_files w);
              line_bufs := line_bufs w;
              live_ifaddrs := live_ifaddrs w |}).

(** [getline(&line_buf, &line_buf_size, fp)] on a fresh stream with
    [line_buf == NULL]: the number of characters read, or -1 when there is
    nothing to read, and the buffer it allocated.  The buffer is allocated
    in both cases. *)
Definition getline (fp : string) : M (Z * option string) := fun w =>
  let line := C.first_line fp in
  let line_size :=
    match fp with
    | EmptyString => -1
    | _ => Z.of_nat (String.length line)
    end in
  (Ret (line_size, Some line),
   {| elog := elog w; tupstore := tupstore w;
      open_files := open_files w; line_bufs := S (line_bufs w);
      live_ifaddrs := live_ifaddrs w |}).

Definition free (line_buf : string) : M unit := fun w =>
  (Ret tt, {| elog := elog w; tupstore := tupstore w;
              open_files := open_files w;
              line_bufs := Nat.pred (line_bufs w);
              live_ifaddrs := live_ifaddrs w |}).

Definition getifaddrs : M (option (list ifaddrs)) := fun w =>
  match os_getifaddrs os with
  | Some l =>
      (Ret (Some l),
       {| elog := elog w; tupstore := tupstore w;
          open_files := open_files w; line_bufs := line_bufs w;
          live_ifaddrs := S (live_ifaddrs w) |})
  | None => (Ret None, w)
  end.

Definition freeifaddrs (ifaddr : list ifaddrs) : M unit := fun w =>
  (Ret tt, {| elog := elog w; tupstore := tupstore w;
              open_files := open_files w; line_bufs := line_bufs w;
              live_ifaddrs := Nat.pred (live_ifaddrs w) |}).

(** [getnameinfo(sa, salen, host, hostlen, NULL, 0, NI_NUMERICHOST)]: the
    return code and the content of [host] afterwards.  A text that does not
    fit into [hostlen] characters with its terminator is refused with
    EAI_OVERFLOW; a failed call leaves the buffer as it was. *)
Definition getnameinfo (sa : sockaddr) (host : list ascii) (hostlen : nat)
  : Z * list ascii :=
  let (code, text) := os_getnameinfo os sa in
  if code =? 0 then
    if (String.length text <? hostlen)%nat
    then (0, C.put_cstring host text)
    else (EAI_OVERFLOW, host)
  else (code, host).

(** *** ReadFileContent

    [data] is the value of [*data] on entry; the result is its value on
    return. *)
Definition ReadFileContent (file_name : string) (data : Z) : M Z :=
  fp <- fopen file_name ;;
  match fp with
  | None =>
      let net_file_name := C.snprintf_s Pg.MAXPGPATH file_name in
      ereport Pg.WARNING Pg.errcode_for_file_access
        ("can not open file " ++ net_file_name
           ++ " for reading network statistics") ;;
      ret data
  | Some fp =>
      r <- getline fp ;;
      let '(line_size, line_buf) := r in
      let data :=
        match line_buf with
        | Some text => if 0 <? line_size then C.to_uint64 (C.atoll text) else data
        | None => data
        end in
      match line_buf with
      | Some b => free b
      | None => ret tt
      end ;;
      fclose fp ;;
      ret data
  end.

(** *** The nine counter readers

    Each reader writes its path with [sprintf] into a
    [char file_name[MAXPGPATH]].  The model keeps the whole path, which is
    what the buffer holds when the path fits it, as it does for every
    interface name that fits IFNAMSIZ; a longer path overruns the buffer in
    the code and is outside the model. *)

Definition ReadReceiveBytes (interface : string) (rx_bytes : Z) : M Z :=
  ReadFileContent
    ("/sys/class/net/" ++ interface ++ "/statistics/rx_bytes") rx_bytes.

Definition ReadTransmitBytes (interface : string) (tx_bytes : Z) : M Z :=
  ReadFileContent
    ("/sys/class/net/" ++ interface ++ "/statistics/tx_bytes") tx_bytes.

Definition ReadReceivePackets (interface : string) (rx_packets : Z) : M Z :=
  ReadFileContent
    ("/sys/class/net/" ++ interface ++ "/statistics/rx_packets") rx_packets.

Definition ReadTransmitPackets (interface : string) (tx_packets : Z) : M Z :=
  ReadFileContent
    ("/sys/class/net/" ++ interface ++ "/statistics/tx_packets") tx_packets.

Definition ReadReceiveErrors (interface : string) (rx_errors : Z) : M Z :=
  ReadFileContent
    ("/sys/class/net/" ++ interface ++ "/statistics/rx_errors") rx_errors.

Definition ReadTransmitErrors (interface : string) (tx_errors : Z) : M Z :=
  ReadFileContent
    ("/sys/class/net/" ++ interface ++ "/statistics/tx_errors") tx_errors.

Definition ReadReceiveDropped (interface : string) (rx_dropped : Z) : M Z :=
  ReadFileContent
    ("/sys/class/net/" ++ interface ++ "/statistics/rx_dropped") rx_dropped.

Definition ReadTransmitDropped (interface : string) (tx_dropped : Z) : M Z :=
  ReadFileContent
    ("/sys/class/net/" ++ interface ++ "/statistics/tx_dropped") tx_dropped.

Definition ReadSpeedMbps (interface : string) (speed : Z) : M Z :=
  ReadFileContent ("/sys/class/net/" ++ interface ++ "/speed") speed.

(** *** ReadNetworkInformations *)

(** The state of the locals after the [memset] calls and initialisers that
    precede the loop. *)
Definition initial_frame : frame :=
  {| nulls := fun _ => false;
     interface_name := C.memset0 Pg.MAXPGPATH;
     ipv4_address := C.memset0 Pg.MAXPGPATH;
     ipv6_address := C.memset0 Pg.MAXPGPATH;
     speed_mbps := 0; tx_bytes := 0; tx_packets := 0; tx_errors := 0;
     tx_dropped := 0; rx_bytes := 0; rx_packets := 0; rx_errors := 0;
     rx_dropped := 0;
     host := C.memset0 Pg.MAXPGPATH |}.

(** One iteration of the [for] loop on the node [ifa]: the locals it leaves
    for the next iteration.  The statements are in the order of the source,
    the assignment to [nulls] after the [ERROR] report included; whether
    they are reached is decided by [ereport]. *)
Definition loop_body (ifa : ifaddrs) (f : frame) : M frame :=
  match ifa_addr ifa with
  | None => ret f
  | Some sa =>
      let '(ret_val, host1) := getnameinfo sa (host f) Pg.MAXPGPATH in
      if sa_family sa =? AF_INET then
        nulls1 <-
          (if negb (ret_val =? 0) then
             ereport Pg.ERROR Pg.ERRCODE_INVALID_PARAMETER_VALUE
               ("getnameinfo() failed: " ++ os_gai_strerror os ret_val) ;;
             ret (set_null (nulls f) Anum_net_ipv4_address)
           else ret (nulls f)) ;;
        let interface_name1 :=
          C.memcpy (interface_name f) (list_ascii_of_string (ifa_name ifa))
            (C.strlen (ifa_name ifa)) in
        let ipv4_address1 :=
          C.memcpy (ipv4_address f) host1 Pg.MAXPGPATH in
        let interface := C.c_str interface_name1 in
        speed_mbps1 <- ReadSpeedMbps interface (speed_mbps f) ;;
        rx_bytes1 <- ReadReceiveBytes interface (rx_bytes f) ;;
        tx_bytes1 <- ReadTransmitBytes interface (tx_bytes f) ;;
        rx_packets1 <- ReadReceivePackets interface (rx_packets f) ;;
        tx_packets1 <- ReadTransmitPackets interface (tx_packets f) ;;
        rx_errors1 <- ReadReceiveErrors interface (rx_errors f) ;;
        tx_errors1 <- ReadTransmitErrors interface (tx_errors f) ;;
        rx_dropped1 <- ReadReceiveDropped interface (rx_dropped f) ;;
        tx_dropped1 <- ReadTransmitDropped interface (tx_dropped f) ;;
        let values := fun a =>
          match a with
          | Anum_net_interface_name => Pg.CStringGetTextDatum interface_name1
          | Anum_net_ipv4_address => Pg.CStringGetTextDatum ipv4_address1
          | Anum_net_ipv6_address => Pg.CStringGetTextDatum (ipv6_address f)
          | Anum_net_speed_mbps => Pg.Int64GetDatumFast speed_mbps1
          | Anum_net_tx_bytes => Pg.Int64GetDatumFast tx_bytes1
          | Anum_net_tx_packets => Pg.Int64GetDatumFast tx_packets1
          | Anum_net_tx_errors => Pg.Int64GetDatumFast tx_errors1
          | Anum_net_tx_dropped => Pg.Int64GetDatumFast tx_dropped1
          | Anum_net_rx_bytes => Pg.Int64GetDatumFast rx_bytes1
          | Anum_net_rx_packets => Pg.Int64GetDatumFast rx_packets1
          | Anum_net_rx_errors => Pg.Int64GetDatumFast rx_errors1
          | Anum_net_rx_dropped => Pg.Int64GetDatumFast rx_dropped1
          end in
        tuplestore_putvalues values nulls1 ;;
        ret {| nulls := nulls1;
               interface_name := C.memset0 Pg.MAXPGPATH;
               ipv4_address := C.memset0 Pg.MAXPGPATH;
               ipv6_address := C.memset0 Pg.MAXPGPATH;
               speed_mbps := 0; tx_bytes := 0; tx_packets := 0;
               tx_errors := 0; tx_dropped := 0; rx_bytes := 0;
               rx_packets := 0; rx_errors := 0; rx_dropped := 0;
               host := host1 |}
      else
        ret {| nulls := nulls f;
               interface_name := interface_name f;
               ipv4_address := ipv4_address f;
               ipv6_address := ipv6_address f;
               speed_mbps := speed_mbps f; tx_bytes := tx_bytes f;
               tx_packets := tx_packets f; tx_errors := tx_errors f;
               tx_dropped := tx_dropped f; rx_bytes := rx_bytes f;
               rx_packets := rx_packets f; rx_errors := rx_errors f;
               rx_dropped := rx_dropped f;
               host := host1 |}
  end.

(** [for (ifa = ifaddr; ifa != NULL; ifa = ifa->ifa_next)]. *)
Fixpoint for_each_ifa (ifa : list ifaddrs) (f : frame) : M frame :=
  match ifa with
  | [] => ret f
  | node :: ifa_next => f1 <- loop_body node f ;; for_each_ifa ifa_next f1
  end.

Definition ReadNetworkInformations : M unit :=
  r <- getifaddrs ;;
  match r with
  | None =>
      ereport Pg.ERROR Pg.ERRCODE_INVALID_PARAMETER_VALUE
        "Failed to get network interface" ;;
      ret tt
  | Some ifaddr =>
      for_each_ifa ifaddr initial_frame ;;
      freeifaddrs ifaddr
  end.

End NetworkInfo.

(** * The model of the scan

    The definitions below describe, as pure functions of the host, what the
    code above does; the theorems relate the two. *)

(** *** Decimal parsing *)

(** The number a run of decimal digits denotes, most significant first. *)
Fixpoint decimal_value (ds : string) : Z :=
  match ds with
  | EmptyString => 0
  | String c rest =>
      C.digit_val c * 10 ^ Z.of_nat (String.length rest) + decimal_value rest
  end.

Fixpoint all_digits (ds : string) : bool :=
  match ds with
  | EmptyString => true
  | String c rest => C.isdigit c && all_digits rest
  end.

Fixpoint no_digit (s : string) : bool :=
  match s with
  | EmptyString => true
  | String c rest => negb (C.isdigit c) && no_digit rest
  end.

(** [rest] does not continue a run of digits. *)
Definition stops_digits (rest : string) : bool :=
  match rest with
  | EmptyString => true
  | String c _ => negb (C.isdigit c)
  end.

(** The world after some reports were logged and some rows were stored; the
    resources held are as before. *)
Definition extend (reports : list Pg.ErrorData) (rows : list HeapTuple)
    (w : world) : world :=
  {| elog := elog w ++ reports; tupstore := tupstore w ++ rows;
     open_files := open_files w; line_bufs := line_bufs w;
     live_ifaddrs := live_ifaddrs w |}.

(** The fixed set of counters, and the reader, the file and the column that
    belong to each.  [counter_path] is the path the reader builds; it is the
    content of the reader's buffer for names that fit IFNAMSIZ. *)
Inductive counter_kind : Type :=
| ReceiveBytes | TransmitBytes
| ReceivePackets | TransmitPackets
| ReceiveErrors | TransmitErrors
| ReceiveDropped | TransmitDropped
| LinkSpeed.

Definition counter_path (k : counter_kind) (interface : string) : string :=
  match k with
  | ReceiveBytes => "/sys/class/net/" ++ interface ++ "/statistics/rx_bytes"
  | TransmitBytes => "/sys/class/net/" ++ interface ++ "/statistics/tx_bytes"
  | ReceivePackets => "/sys/class/net/" ++ interface ++ "/statistics/rx_packets"
  | TransmitPackets => "/sys/class/net/" ++ interface ++ "/statistics/tx_packets"
  | ReceiveErrors => "/sys/class/net/" ++ interface ++ "/statistics/rx_errors"
  | TransmitErrors => "/sys/class/net/" ++ interface ++ "/statistics/tx_errors"
  | ReceiveDropped => "/sys/class/net/" ++ interface ++ "/statistics/rx_dropped"
  | TransmitDropped => "/sys/class/net/" ++ interface ++ "/statistics/tx_dropped"
  | LinkSpeed => "/sys/class/net/" ++ interface ++ "/speed"
  end.

Definition counter_column (k : counter_kind) : Anum :=
  match k with
  | ReceiveBytes => Anum_net_rx_bytes
  | TransmitBytes => Anum_net_tx_bytes
  | ReceivePackets => Anum_net_rx_packets
  | TransmitPackets => Anum_net_tx_packets
  | ReceiveErrors => Anum_net_rx_errors
  | TransmitErrors => Anum_net_tx_errors
  | ReceiveDropped => Anum_net_rx_dropped
  | TransmitDropped => Anum_net_tx_dropped
  | LinkSpeed => Anum_net_speed_mbps
  end.

(** The readers in the order in which the loop calls them. *)
Definition call_order : list counter_kind :=
  [LinkSpeed; ReceiveBytes; TransmitBytes; ReceivePackets; TransmitPackets;
   ReceiveErrors; TransmitErrors; ReceiveDropped; TransmitDropped].

(** <net/if.h>: an interface name, with its terminator, fits IFNAMSIZ. *)
Definition IFNAMSIZ : nat := 16.

(** A well-formed node: its name is a C string that fits IFNAMSIZ.  The
    buffers of the scan and of the readers are large enough for such names. *)
Definition valid_ifa (ifa : ifaddrs) : bool :=
  C.is_cstring (ifa_name ifa) && (C.strlen (ifa_name ifa) <? IFNAMSIZ)%nat.

(** The nodes the loop makes rows for: a bound address of family AF_INET. *)
Definition is_ipv4 (ifa : ifaddrs) : bool :=
  match ifa_addr ifa with
  | Some sa => sa_family sa =? AF_INET
  | None => false
  end.

(** The interface name a row carries. *)
Definition row_name (t : HeapTuple) : string :=
  match t_interface_name t with
  | Some (Pg.TextDatum s) => s
  | _ => EmptyString
  end.

(** The world while the list made by [getifaddrs] is held. *)
Definition holding_list (w : world) : world :=
  {| elog := elog w; tupstore := tupstore w;
     open_files := open_files w; line_bufs := line_bufs w;
     live_ifaddrs := S (live_ifaddrs w) |}.

Definition enumeration_error : Pg.ErrorData :=
  Pg.mkErrorData Pg.ERROR Pg.ERRCODE_INVALID_PARAMETER_VALUE
    "Failed to get network interface".

Section Model.

Variable os : host_env.

Definition ReadCounter (k : counter_kind) : string -> Z -> M Z :=
  match k with
  | ReceiveBytes => ReadReceiveBytes os
  | TransmitBytes => ReadTransmitBytes os
  | ReceivePackets => ReadReceivePackets os
  | TransmitPackets => ReadTransmitPackets os
  | ReceiveErrors => ReadReceiveErrors os
  | TransmitErrors => ReadTransmitErrors os
  | ReceiveDropped => ReadReceiveDropped os
  | TransmitDropped => ReadTransmitDropped os
  | LinkSpeed => ReadSpeedMbps os
  end.

(** The value [ReadFileContent] leaves in [*data]. *)
Definition counter_after (file_name : string) (data : Z) : Z :=
  match os_file os file_name with
  | None => data
  | Some EmptyString => data
  | Some content => C.to_uint64 (C.atoll (C.first_line content))
  end.

(** The report [ReadFileContent] sends, if any. *)
Definition open_warning (file_name : string) : list Pg.ErrorData :=
  match os_file os file_name with
  | None =>
      [Pg.mkErrorData Pg.WARNING Pg.errcode_for_file_access
         ("can not open file " ++ C.snprintf_s Pg.MAXPGPATH file_name
            ++ " for reading network statistics")]
  | Some _ => []
  end.

(** The locals between two iterations: everything as after the initial
    [memset]s except the conversion buffer, which holds [h]. *)
Definition scratch (h : list ascii) : frame :=
  {| nulls := fun _ => false;
     interface_name := C.memset0 Pg.MAXPGPATH;
     ipv4_address := C.memset0 Pg.MAXPGPATH;
     ipv6_address := C.memset0 Pg.MAXPGPATH;
     speed_mbps := 0; tx_bytes := 0; tx_packets := 0; tx_errors := 0;
     tx_dropped := 0; rx_bytes := 0; rx_packets := 0; rx_errors := 0;
     rx_dropped := 0;
     host := h |}.

(** The return code of the conversion of [sa], the buffer it leaves and
    the text a successful conversion delivers. *)
Definition gni_code (sa : sockaddr) : Z :=
  fst (getnameinfo os sa [] Pg.MAXPGPATH).

Definition gni_host (sa : sockaddr) (h : list ascii) : list ascii :=
  snd (getnameinfo os sa h Pg.MAXPGPATH).

Definition gni_text (sa : sockaddr) : string :=
  C.c_str (list_ascii_of_string (snd (os_getnameinfo os sa))).

(** The row the loop stores for an IPv4 node whose address converts. *)
Definition row_of (ifa : ifaddrs) (sa : sockaddr) : HeapTuple :=
  let counter k :=
    Some (Pg.Int64Datum (counter_after (counter_path k (ifa_name ifa)) 0)) in
  {| t_interface_name := Some (Pg.TextDatum (ifa_name ifa));
     t_ipv4_address := Some (Pg.TextDatum (gni_text sa));
     t_ipv6_address := Some (Pg.TextDatum EmptyString);
     t_speed_mbps := counter LinkSpeed;
     t_tx_bytes := counter TransmitBytes;
     t_tx_packets := counter TransmitPackets;
     t_tx_errors := counter TransmitErrors;
     t_tx_dropped := counter TransmitDropped;
     t_rx_bytes := counter ReceiveBytes;
     t_rx_packets := counter ReceivePackets;
     t_rx_errors := counter ReceiveErrors;
     t_rx_dropped := counter ReceiveDropped |}.

(** The warnings of the nine readers for one interface. *)
Definition body_log (interface : string) : list Pg.ErrorData :=
  flat_map (fun k => open_warning (counter_path k interface)) call_order.

Definition conversion_error (sa : sockaddr) : Pg.ErrorData :=
  Pg.mkErrorData Pg.ERROR Pg.ERRCODE_INVALID_PARAMETER_VALUE
    ("getnameinfo() failed: " ++ os_gai_strerror os (gni_code sa)).

(** The IPv4 nodes for which the loop stores a row: those that come before
    the first IPv4 node whose address does not convert. *)
Fixpoint emitted (l : list ifaddrs) : list (ifaddrs * sockaddr) :=
  match l with
  | [] => []
  | ifa :: rest =>
      match ifa_addr ifa with
      | Some sa =>
          if sa_family sa =? AF_INET then
            if gni_code sa =? 0 then (ifa, sa) :: emitted rest else []
          else emitted rest
      | None => emitted rest
      end
  end.

(** The address on which the loop is left by an [ERROR], if any. *)
Fixpoint aborted (l : list ifaddrs) : option sockaddr :=
  match l with
  | [] => None
  | ifa :: rest =>
      match ifa_addr ifa with
      | Some sa =>
          if sa_family sa =? AF_INET then
            if gni_code sa =? 0 then aborted rest else Some sa
          else aborted rest
      | None => aborted rest
      end
  end.

(** The conversion buffer after a loop that ran to its end. *)
Fixpoint final_host (l : list ifaddrs) (h : list ascii) : list ascii :=
  match l with
  | [] => h
  | ifa :: rest =>
      match ifa_addr ifa with
      | Some sa => final_host rest (gni_host sa h)
      | None => final_host rest h
      end
  end.

Definition scan_log (l : list ifaddrs) : list Pg.ErrorData :=
  flat_map (fun e => body_log (ifa_name (fst e))) (emitted l)
  ++ match aborted l with
     | Some sa => [conversion_error sa]
     | None => []
     end.

Definition scan_rows (l : list ifaddrs) : list HeapTuple :=
  map (fun e => row_of (fst e) (snd e)) (emitted l).

(** Every IPv4 node of the list converts. *)
Definition converts (ifa : ifaddrs) : bool :=
  match ifa_addr ifa with
  | Some sa => negb (sa_family sa =? AF_INET) || (gni_code sa =? 0)
  | None => true
  end.

End Model.

(** ** Texts of counter files *)

(** The decimal text of a non-negative number, as the kernel prints a
    counter. *)
Definition decimal_text (n : Z) : string :=
  NilEmpty.string_of_uint (N.to_uint (Z.to_N n)).

Fixpoint no_newline (s : string) : bool :=
  match s with
  | EmptyString => true
  | String c rest => negb (nat_of_ascii c =? 10)%nat && no_newline rest
  end.

Fixpoint all_space (s : string) : bool :=
  match s with
  | EmptyString => true
  | String c rest => C.isspace c && all_space rest
  end.

(** The host [os] at a moment when its enumeration is the list [l]. *)
Definition with_ifaddrs (os : host_env) (l : list ifaddrs) : host_env :=
  {| os_getifaddrs := Some l;
     os_getnameinfo := os_getnameinfo os;
     os_gai_strerror := os_gai_strerror os;
     os_file := os_file os |}.

(** * Sample hosts *)

(** <netdb.h> (glibc). *)
Definition EAI_FAMILY : Z := -6.
Definition EAI_MEMORY : Z := -10.

Definition sample_gai_strerror (code : Z) : string :=
  if code =? EAI_FAMILY then "ai_family not supported"
  else if code =? EAI_MEMORY then "Memory allocation failure"
  else if code =? EAI_OVERFLOW then "Argument buffer overflow"
  else "Unknown error".

(** The dotted-decimal text of the four bytes of an IPv4 address. *)
Definition inet_ntoa (bytes : list Z) : string :=
  String.concat "."
    (map (fun b => NilEmpty.string_of_uint (N.to_uint (Z.to_N b))) bytes).

(** A conversion that serves IPv4 addresses of four bytes, except the
    address [broken], for which it runs out of memory. *)
Definition sample_getnameinfo (broken : list Z) (sa : sockaddr) : Z * string :=
  if (sa_family sa =? AF_INET) && (List.length (sa_data sa) =? 4)%nat then
    if list_eq_dec Z.eq_dec (sa_data sa) broken
    then (EAI_MEMORY, EmptyString)
    else (0, inet_ntoa (sa_data sa))
  else (EAI_FAMILY, EmptyString).

Fixpoint lookup_file (files : list (string * string)) (path : string)
  : option string :=
  match files with
  | [] => None
  | (p, content) :: rest =>
      if String.eqb p path then Some content else lookup_file rest path
  end.

Definition empty_world : world :=
  {| elog := []; tupstore := []; open_files := 0; line_bufs := 0;
     live_ifaddrs := 0 |}.

Definition ipv4_node (name : string) (bytes : list Z) : ifaddrs :=
  {| ifa_name := name;
     ifa_addr := Some {| sa_family := AF_INET; sa_data := bytes |} |}.

Definition packet_node (name : string) : ifaddrs :=
  {| ifa_name := name;
     ifa_addr := Some {| sa_family := AF_PACKET; sa_data := [] |} |}.

(** eth0 with one IPv4 address and a received-bytes counter, all other
    counter files missing; lo without an IPv4 address. *)
Definition plain_host : host_env :=
  {| os_getifaddrs :=
       Some [packet_node "lo"; packet_node "eth0";
             ipv4_node "eth0" [10; 0; 0; 5]];
     os_getnameinfo := sample_getnameinfo [];
     os_gai_strerror := sample_gai_strerror;
     os_file :=
       lookup_file [("/sys/class/net/eth0/statistics/rx_bytes", "500")] |}.

(** eth0 carries two IPv4 addresses. *)
Definition alias_host : host_env :=
  {| os_getifaddrs :=
       Some [ipv4_node "eth0" [10; 0; 0; 5]; ipv4_node "eth0" [10; 0; 0; 6]];
     os_getnameinfo := sample_getnameinfo [];
     os_gai_strerror := sample_gai_strerror;
     os_file := lookup_file [] |}.

(** Three IPv4 interfaces; the conversion of the address of the second one
    fails. *)
Definition failing_host : host_env :=
  {| os_getifaddrs :=
       Some [ipv4_node "eth0" [10; 0; 0; 5]; ipv4_node "eth1" [10; 0; 0; 7];
             ipv4_node "eth2" [10; 0; 0; 9]];
     os_getnameinfo := sample_getnameinfo [10; 0; 0; 7];
     os_gai_strerror := sample_gai_strerror;
     os_file := lookup_file [] |}.

(** A host on which [getifaddrs] fails. *)
Definition no_list_host : host_env :=
  {| os_getifaddrs := None;
     os_getnameinfo := sample_getnameinfo [];
     os_gai_strerror := sample_gai_strerror;
     os_file := lookup_file [] |}.

Definition newline : string := String (ascii_of_nat 10) EmptyString.

(** A virtual interface: its speed file reads -1. *)
Definition virtual_host : host_env :=
  {| os_getifaddrs := Some [ipv4_node "veth0" [172; 17; 0; 1]];
     os_getnameinfo := sample_getnameinfo [];
     os_gai_strerror := sample_gai_strerror;
     os_file :=
       lookup_file
         [("/sys/class/net/veth0/speed", ("-1" ++ newline)%string);
          ("/sys/class/net/veth0/statistics/rx_bytes", ("12345" ++ newline)%string);
          ("/sys/class/net/veth0/statistics/tx_bytes", "123abc");
          ("/sys/class/net/veth0/statistics/rx_errors", ("abc" ++ newline)%string);
          ("/sys/class/net/veth0/statistics/tx_errors", EmptyString)] |}.

(** [plain_host] after the transmitted-bytes counter of eth0 appeared. *)
Definition plain_host_tx : host_env :=
  {| os_getifaddrs := os_getifaddrs plain_host;
     os_getnameinfo := os_getnameinfo plain_host;
     os_gai_strerror := os_gai_strerror plain_host;
     os_file :=
       lookup_file
         [("/sys/class/net/eth0/statistics/tx_bytes", "77");
          ("/sys/class/net/eth0/statistics/rx_bytes", "500")] |}.

(** A host with a loopback and an IPv6-only interface: no IPv4 node. *)
Definition ipv6_only_host : host_env :=
  {| os_getifaddrs :=
       Some [packet_node "lo";
             {| ifa_name := "tun0"; ifa_addr := None |};
             {| ifa_name := "eth0";
                ifa_addr := Some {| sa_family := AF_INET6; sa_data := [] |} |}];
     os_getnameinfo := sample_getnameinfo [];
     os_gai_strerror := sample_gai_strerror;
     os_file := lookup_file [] |}.

(** Counter files that need some care: blanks before the number, a second
    line, an empty first line. *)
Definition padded_host : host_env :=
  {| os_getifaddrs := Some [ipv4_node "eth0" [10; 0; 0; 5]];
     os_getnameinfo := sample_getnameinfo [];
     os_gai_strerror := sample_gai_strerror;
     os_file :=
       lookup_file
         [("/sys/class/net/eth0/speed", ("  1000" ++ newline)%string);
          ("/sys/class/net/eth0/statistics/rx_bytes",
           ("7" ++ newline ++ "8" ++ newline)%string);
          ("/sys/class/net/eth0/statistics/tx_bytes",
           (EmptyString ++ newline ++ "42")%string)] |}.

(** An unsigned counter beyond the range of [long long], and an empty
    counter file. *)
Definition huge_host : host_env :=
  {| os_getifaddrs := Some [ipv4_node "eth0" [10; 0; 0; 5]];
     os_getnameinfo := sample_getnameinfo [];
     os_gai_strerror := sample_gai_strerror;
     os_file :=
       lookup_file
         [("/sys/class/net/eth0/statistics/rx_bytes",
           ("18446744073709551615" ++ newline)%string);
          ("/sys/class/net/eth0/statistics/tx_bytes", EmptyString)] |}.

(** * Properties *)

(** ** Facts about the C layer *)

Module CFacts.
Import C.

Lemma to_uint64_range (z : Z) : 0 <= to_uint64 z < 2 ^ 64.
Proof. unfold to_uint64, UINT64_MOD. apply Z.mod_pos_bound. lia. Qed.

Lemma to_uint64_small (z : Z) : 0 <= z < 2 ^ 64 -> to_uint64 z = z.
Proof. intros H. unfold to_uint64, UINT64_MOD. now apply Z.mod_small. Qed.

(** Passing a [uint64] through [int64] and back to a machine word keeps
    its bit pattern. *)
Lemma to_uint64_to_int64 (z : Z) : to_uint64 (to_int64 z) = to_uint64 z.
Proof.
  unfold to_int64, to_uint64, UINT64_MOD, LLONG_MAX.
  destruct (z mod 2 ^ 64 <=? 2 ^ 63 - 1).
  - apply Z.mod_mod. lia.
  - replace (z mod 2 ^ 64 - 2 ^ 64) with (z mod 2 ^ 64 + (-1) * 2 ^ 64) by lia.
    rewrite Z.mod_add by lia. apply Z.mod_mod. lia.
Qed.

Lemma length_list_ascii (s : string) :
  List.length (list_ascii_of_string s) = String.length s.
Proof. induction s; simpl; congruence. Qed.

Lemma c_str_app_nul (l1 l2 : list ascii) :
  c_str (l1 ++ NUL :: l2) = c_str l1.
Proof.
  induction l1 as [|c l1 IH]; simpl.
  - reflexivity.
  - destruct (is_nul c); [reflexivity | now rewrite IH].
Qed.

Lemma c_str_zeros (k : nat) : c_str (repeat NUL k) = EmptyString.
Proof. destruct k; reflexivity. Qed.

Lemma c_str_app_zeros (l : list ascii) (k : nat) :
  c_str (l ++ repeat NUL k) = c_str l.
Proof.
  induction l as [|c l IH]; simpl.
  - apply c_str_zeros.
  - destruct (is_nul c); [reflexivity | now rewrite IH].
Qed.

Lemma c_str_cstring (s : string) :
  is_cstring s = true -> c_str (list_ascii_of_string s) = s.
Proof.
  unfold is_cstring. induction s as [|c s IH]; simpl; intros H.
  - reflexivity.
  - apply andb_true_iff in H. destruct H as [Hc Hs].
    apply negb_true_iff in Hc. rewrite Hc. now rewrite IH.
Qed.

Lemma skipn_zeros (k n : nat) :
  skipn k (repeat NUL n) = repeat NUL (n - k).
Proof.
  revert k. induction n as [|n IH]; intros [|k]; simpl; auto.
Qed.

(** Copying a name into a zeroed buffer and reading the buffer back. *)
Lemma c_str_memcpy_name (n : nat) (s : string) :
  c_str (memcpy (memset0 n) (list_ascii_of_string s) (strlen s))
  = c_str (list_ascii_of_string s).
Proof.
  unfold memcpy, memset0, strlen.
  rewrite <- length_list_ascii, firstn_all, skipn_zeros.
  apply c_str_app_zeros.
Qed.

(** Copying the whole conversion buffer after a text was put into it. *)
Lemma c_str_memcpy_host (n : nat) (dst h : list ascii) (text : string) :
  (String.length text < n)%nat ->
  c_str (memcpy dst (put_cstring h text) n)
  = c_str (list_ascii_of_string text).
Proof.
  intros Hlen. unfold memcpy, put_cstring.
  rewrite firstn_app, length_list_ascii.
  rewrite firstn_all2 by (rewrite length_list_ascii; lia).
  destruct (n - String.length text)%nat as [|m] eqn:E; [lia|].
  simpl firstn. rewrite <- app_assoc. simpl.
  apply c_str_app_nul.
Qed.

Lemma substring_all (s : string) (n : nat) :
  (String.length s <= n)%nat -> substring 0 n s = s.
Proof.
  revert n. induction s as [|c s IH]; intros n H.
  - destruct n; reflexivity.
  - destruct n as [|n]; simpl in *; [lia|]. rewrite IH by lia. reflexivity.
Qed.

Lemma snprintf_fits (n : nat) (s : string) :
  (String.length s < n)%nat -> snprintf_s n s = s.
Proof. intros H. unfold snprintf_s. apply substring_all. lia. Qed.

Lemma string_length_app (s t : string) :
  String.length (s ++ t) = (String.length s + String.length t)%nat.
Proof. induction s; simpl; congruence. Qed.

Lemma digits_acc_stop (rest : string) (acc : Z) :
  stops_digits rest = true -> digits_acc rest acc = acc.
Proof.
  destruct rest as [|c rest]; simpl; [reflexivity|].
  intros H. apply negb_true_iff in H. now rewrite H.
Qed.

Lemma digits_acc_prefix (ds rest : string) (acc : Z) :
  all_digits ds = true -> stops_digits rest = true ->
  digits_acc (ds ++ rest) acc
  = acc * 10 ^ Z.of_nat (String.length ds) + decimal_value ds.
Proof.
  intros Hd Hr. revert acc.
  induction ds as [|c ds IH]; intros acc;
    cbn [append digits_acc decimal_value String.length].
  - rewrite digits_acc_stop by assumption. change (Z.of_nat 0) with 0. lia.
  - cbn [all_digits] in Hd. apply andb_true_iff in Hd. destruct Hd as [Hc Hd].
    rewrite Hc, IH by assumption.
    rewrite Nat2Z.inj_succ, Z.pow_succ_r by lia. ring.
Qed.

Lemma decimal_value_nonneg (ds : string) :
  all_digits ds = true -> 0 <= decimal_value ds.
Proof.
  induction ds as [|c ds IH]; simpl; intros H; [lia|].
  apply andb_true_iff in H. destruct H as [Hc Hd].
  specialize (IH Hd).
  assert (0 <= digit_val c).
  { unfold isdigit in Hc. unfold digit_val.
    apply andb_true_iff in Hc. destruct Hc as [Hc _].
    apply Nat.leb_le in Hc. lia. }
  assert (0 <= 10 ^ Z.of_nat (String.length ds)) by (apply Z.pow_nonneg; lia).
  nia.
Qed.

Lemma isdigit_not_space (c : ascii) : isdigit c = true -> isspace c = false.
Proof.
  unfold isdigit, isspace. intros H.
  apply andb_true_iff in H. destruct H as [H1 H2].
  apply Nat.leb_le in H1. apply Nat.leb_le in H2.
  apply orb_false_iff. split.
  - apply Nat.eqb_neq. lia.
  - apply andb_false_iff. right. apply Nat.leb_gt. lia.
Qed.

Lemma isdigit_not_sign (c : ascii) :
  isdigit c = true -> c <> "-"%char /\ c <> "+"%char.
Proof.
  intros H. split; intros ->; discriminate H.
Qed.

Lemma clamp_llong_in_range (z : Z) :
  LLONG_MIN <= z <= LLONG_MAX -> clamp_llong z = z.
Proof.
  intros [H1 H2]. unfold clamp_llong.
  destruct (z <? LLONG_MIN) eqn:E1; [apply Z.ltb_lt in E1; lia|].
  destruct (LLONG_MAX <? z) eqn:E2; [apply Z.ltb_lt in E2; lia|].
  reflexivity.
Qed.

(** A text that starts with a run of digits parses to the run's value,
    whatever follows it. *)
Lemma atoll_prefix (c : ascii) (ds rest : string) :
  all_digits (String c ds) = true -> stops_digits rest = true ->
  atoll (String c ds ++ rest) = clamp_llong (decimal_value (String c ds)).
Proof.
  intros Hd Hr.
  pose proof Hd as Hd'. simpl in Hd'. apply andb_true_iff in Hd'.
  destruct Hd' as [Hc _].
  unfold atoll. change (String c ds ++ rest)%string with (String c (ds ++ rest)).
  cbn [skip_space]. rewrite (isdigit_not_space c Hc).
  change (String c (ds ++ rest)) with (String c ds ++ rest)%string.
  pose proof (digits_acc_prefix (String c ds) rest 0 Hd Hr) as P.
  rewrite Z.mul_0_l, Z.add_0_l in P.
  destruct (isdigit_not_sign c Hc) as [Hm Hp].
  destruct c as [[] [] [] [] [] [] [] []];
    try (exfalso; apply Hm; reflexivity);
    try (exfalso; apply Hp; reflexivity);
    cbn [append]; cbn [append] in P; rewrite P; reflexivity.
Qed.

(** A minus sign before the run negates it. *)
Lemma atoll_minus_prefix (ds rest : string) :
  all_digits ds = true -> stops_digits rest = true ->
  atoll (String "-" ds ++ rest) = clamp_llong (- decimal_value ds).
Proof.
  intros Hd Hr. unfold atoll.
  change (String "-" ds ++ rest)%string with (String "-" (ds ++ rest)).
  cbn [skip_space]. change (isspace "-") with false. cbv iota.
  pose proof (digits_acc_prefix ds rest 0 Hd Hr) as P.
  rewrite Z.mul_0_l, Z.add_0_l in P. now rewrite P.
Qed.

Lemma digits_acc_no_digit (s : string) (acc : Z) :
  no_digit s = true -> digits_acc s acc = acc.
Proof.
  destruct s as [|c s]; simpl; [reflexivity|].
  intros H. apply andb_true_iff in H. destruct H as [H _].
  apply negb_true_iff in H. now rewrite H.
Qed.

Lemma no_digit_skip_space (s : string) :
  no_digit s = true -> no_digit (skip_space s) = true.
Proof.
  induction s as [|c s IH]; simpl; intros H; [reflexivity|].
  pose proof H as H'. apply andb_true_iff in H'. destruct H' as [Hc Hs].
  destruct (isspace c); [now apply IH | exact H].
Qed.

(** A text without any digit parses to 0. *)
Lemma atoll_no_digit (s : string) : no_digit s = true -> atoll s = 0.
Proof.
  intros H. apply no_digit_skip_space in H. unfold atoll.
  destruct (skip_space s) as [|c t] eqn:E; [reflexivity|].
  assert (Ht : no_digit t = true).
  { simpl in H. apply andb_true_iff in H. tauto. }
  assert (Hc : digits_acc (String c t) 0 = 0)
    by now apply digits_acc_no_digit.
  destruct c as [[] [] [] [] [] [] [] []];
    rewrite ?Hc, ?(digits_acc_no_digit t 0 Ht); reflexivity.
Qed.

Lemma no_digit_first_line (s : string) :
  no_digit s = true -> no_digit (first_line s) = true.
Proof.
  induction s as [|c s IH]; simpl; intros H; [reflexivity|].
  apply andb_true_iff in H. destruct H as [Hc Hs].
  destruct (nat_of_ascii c =? 10)%nat; simpl; rewrite Hc; simpl; auto.
Qed.

End CFacts.

(** ** What one call does to the world *)

Lemma extend_nil (w : world) : extend [] [] w = w.
Proof. destruct w. unfold extend. simpl. now rewrite !app_nil_r. Qed.

Lemma extend_extend (l1 l2 : list Pg.ErrorData) (r1 r2 : list HeapTuple)
    (w : world) :
  extend l2 r2 (extend l1 r1 w) = extend (l1 ++ l2) (r1 ++ r2) w.
Proof. unfold extend. simpl. now rewrite !app_assoc. Qed.

Lemma bind_ret {A B} (m : M A) (k : A -> M B) (w w' : world) (a : A) :
  m w = (Ret a, w') -> bind m k w = k a w'.
Proof. intros H. unfold bind. now rewrite H. Qed.

Lemma bind_raise {A B} (m : M A) (k : A -> M B) (w w' : world) :
  m w = (Raise, w') -> bind m k w = (Raise, w').
Proof. intros H. unfold bind. now rewrite H. Qed.

Section RunFacts.

Variable os : host_env.

Lemma ReadFileContent_run (file_name : string) (data : Z) (w : world) :
  ReadFileContent os file_name data w
  = (Ret (counter_after os file_name data),
     extend (open_warning os file_name) [] w).
Proof.
  unfold ReadFileContent, counter_after, open_warning, bind, fopen.
  destruct (os_file os file_name) as [content|].
  - rewrite extend_nil. destruct w.
    destruct content as [|c rest]; [reflexivity|].
    unfold getline, free, fclose, ret, extend. cbn [fst snd elog tupstore
      open_files line_bufs live_ifaddrs Nat.pred].
    replace (0 <? Z.of_nat (String.length (C.first_line (String c rest))))
      with true; [reflexivity|].
    symmetry. apply Z.ltb_lt. cbn [C.first_line].
    destruct (nat_of_ascii c =? 10)%nat; cbn [String.length]; lia.
  - unfold ereport, bind, log_report, ret, extend.
    replace (Pg.ERROR <=? Pg.WARNING) with false by reflexivity.
    destruct w. cbn. now rewrite app_nil_r.
Qed.

Lemma ReadCounter_run (k : counter_kind) (interface : string) (data : Z)
    (w : world) :
  ReadCounter os k interface data w
  = (Ret (counter_after os (counter_path k interface) data),
     extend (open_warning os (counter_path k interface)) [] w).
Proof. destruct k; apply ReadFileContent_run. Qed.

Lemma counter_after_range (file_name : string) :
  0 <= counter_after os file_name 0 < 2 ^ 64.
Proof.
  unfold counter_after.
  destruct (os_file os file_name) as [[|c rest]|];
    try (apply CFacts.to_uint64_range); lia.
Qed.

Lemma Int64GetDatumFast_counter (file_name : string) :
  Pg.Int64GetDatumFast (counter_after os file_name 0)
  = Pg.Int64Datum (counter_after os file_name 0).
Proof.
  unfold Pg.Int64GetDatumFast.
  rewrite CFacts.to_uint64_to_int64, CFacts.to_uint64_small; [reflexivity|].
  apply counter_after_range.
Qed.


Lemma getnameinfo_eq (sa : sockaddr) (h : list ascii) :
  getnameinfo os sa h Pg.MAXPGPATH = (gni_code os sa, gni_host os sa h).
Proof.
  unfold gni_code, gni_host, getnameinfo.
  destruct (os_getnameinfo os sa) as [code text].
  destruct (code =? 0); [|reflexivity].
  destruct (String.length text <? Pg.MAXPGPATH)%nat; reflexivity.
Qed.

Lemma gni_host_text (sa : sockaddr) (dst h : list ascii) :
  gni_code os sa = 0 ->
  C.c_str (C.memcpy dst (gni_host os sa h) Pg.MAXPGPATH) = gni_text os sa.
Proof.
  unfold gni_code, gni_host, gni_text, getnameinfo.
  destruct (os_getnameinfo os sa) as [code text]. cbn [snd].
  destruct (code =? 0) eqn:Ec.
  - destruct (String.length text <? Pg.MAXPGPATH)%nat eqn:El; cbn [fst snd].
    + intros _. apply CFacts.c_str_memcpy_host. now apply Nat.ltb_lt.
    + discriminate.
  - cbn [fst]. intros ->. discriminate Ec.
Qed.

Lemma loop_body_no_addr (ifa : ifaddrs) (f : frame) (w : world) :
  ifa_addr ifa = None -> loop_body os ifa f w = (Ret f, w).
Proof. intros H. unfold loop_body. now rewrite H. Qed.

Lemma loop_body_other_family (ifa : ifaddrs) (sa : sockaddr)
    (h : list ascii) (w : world) :
  ifa_addr ifa = Some sa -> (sa_family sa =? AF_INET) = false ->
  loop_body os ifa (scratch h) w = (Ret (scratch (gni_host os sa h)), w).
Proof.
  intros Ha Hf. unfold loop_body.
  rewrite Ha, getnameinfo_eq, Hf. reflexivity.
Qed.

Lemma loop_body_aborts (ifa : ifaddrs) (sa : sockaddr) (f : frame)
    (w : world) :
  ifa_addr ifa = Some sa -> (sa_family sa =? AF_INET) = true ->
  gni_code os sa <> 0 ->
  loop_body os ifa f w = (Raise, extend [conversion_error os sa] [] w).
Proof.
  intros Ha Hf Hc. unfold loop_body.
  rewrite Ha, getnameinfo_eq, Hf.
  apply Z.eqb_neq in Hc. rewrite Hc. cbn [negb].
  apply bind_raise. apply bind_raise.
  unfold ereport. erewrite bind_ret by reflexivity.
  replace (Pg.ERROR <=? Pg.ERROR) with true by reflexivity.
  unfold throw, extend, conversion_error. cbn.
  now rewrite app_nil_r.
Qed.

Lemma loop_body_emits (ifa : ifaddrs) (sa : sockaddr) (h : list ascii)
    (w : world) :
  valid_ifa ifa = true ->
  ifa_addr ifa = Some sa -> (sa_family sa =? AF_INET) = true ->
  gni_code os sa = 0 ->
  loop_body os ifa (scratch h) w
  = (Ret (scratch (gni_host os sa h)),
     extend (body_log os (ifa_name ifa)) [row_of os ifa sa] w).
Proof.
  intros Hv Ha Hf Hc. unfold loop_body.
  rewrite Ha, getnameinfo_eq, Hf, Hc.
  change (negb (0 =? 0)) with false. cbv iota.
  erewrite bind_ret by reflexivity.
  cbn [nulls interface_name ipv4_address ipv6_address speed_mbps tx_bytes
       tx_packets tx_errors tx_dropped rx_bytes rx_packets rx_errors
       rx_dropped host scratch].
  apply andb_true_iff in Hv. destruct Hv as [Hcs _].
  rewrite CFacts.c_str_memcpy_name, (CFacts.c_str_cstring _ Hcs).
  erewrite bind_ret by apply (ReadCounter_run LinkSpeed).
  erewrite bind_ret by apply (ReadCounter_run ReceiveBytes).
  erewrite bind_ret by apply (ReadCounter_run TransmitBytes).
  erewrite bind_ret by apply (ReadCounter_run ReceivePackets).
  erewrite bind_ret by apply (ReadCounter_run TransmitPackets).
  erewrite bind_ret by apply (ReadCounter_run ReceiveErrors).
  erewrite bind_ret by apply (ReadCounter_run TransmitErrors).
  erewrite bind_ret by apply (ReadCounter_run ReceiveDropped).
  erewrite bind_ret by apply (ReadCounter_run TransmitDropped).
  erewrite bind_ret by reflexivity.
  unfold ret. f_equal.
  rewrite !extend_extend. unfold extend at 1.
  cbn [elog tupstore open_files line_bufs live_ifaddrs extend].
  unfold body_log, call_order. cbn [flat_map].
  cbn [app]. rewrite !app_nil_r. unfold extend.
  unfold heap_form_tuple, row_of, Pg.CStringGetTextDatum.
  rewrite !Int64GetDatumFast_counter.
  rewrite (gni_host_text sa _ h Hc), CFacts.c_str_memcpy_name.
  rewrite (CFacts.c_str_cstring _ Hcs).
  unfold C.memset0. rewrite CFacts.c_str_zeros.
  reflexivity.
Qed.


Lemma for_each_ifa_run (l : list ifaddrs) :
  forallb valid_ifa l = true ->
  forall (h : list ascii) (w : world),
    for_each_ifa os l (scratch h) w
    = (match aborted os l with
       | Some _ => Raise
       | None => Ret (scratch (final_host os l h))
       end,
       extend (scan_log os l) (scan_rows os l) w).
Proof.
  unfold scan_log, scan_rows.
  induction l as [|ifa rest IH]; intros Hv h w.
  - cbn. now rewrite extend_nil.
  - cbn [forallb] in Hv. apply andb_true_iff in Hv. destruct Hv as [Hi Hr].
    specialize (IH Hr).
    cbn [for_each_ifa emitted aborted final_host].
    destruct (ifa_addr ifa) as [sa|] eqn:Ha.
    + destruct (sa_family sa =? AF_INET) eqn:Hf.
      * destruct (gni_code os sa =? 0) eqn:Hc.
        -- apply Z.eqb_eq in Hc.
           erewrite bind_ret by (apply loop_body_emits; eassumption).
           rewrite IH, extend_extend. cbn [flat_map map fst snd app].
           now rewrite <- app_assoc.
        -- apply Z.eqb_neq in Hc.
           erewrite bind_raise by (apply loop_body_aborts; eassumption).
           reflexivity.
      * erewrite bind_ret by (apply loop_body_other_family; eassumption).
        apply IH.
    + erewrite bind_ret by (apply loop_body_no_addr; eassumption).
      apply IH.
Qed.

Lemma ReadNetworkInformations_no_list (w : world) :
  os_getifaddrs os = None ->
  ReadNetworkInformations os w = (Raise, extend [enumeration_error] [] w).
Proof.
  intros H. unfold ReadNetworkInformations, bind, getifaddrs. rewrite H.
  unfold ereport, bind, log_report, throw, extend, enumeration_error.
  replace (Pg.ERROR <=? Pg.ERROR) with true by reflexivity.
  cbn. now rewrite app_nil_r.
Qed.

Lemma ReadNetworkInformations_run (l : list ifaddrs) (w : world) :
  os_getifaddrs os = Some l -> forallb valid_ifa l = true ->
  ReadNetworkInformations os w
  = match aborted os l with
    | Some _ => (Raise, extend (scan_log os l) (scan_rows os l) (holding_list w))
    | None => (Ret tt, extend (scan_log os l) (scan_rows os l) w)
    end.
Proof.
  intros H Hv. unfold ReadNetworkInformations.
  erewrite bind_ret
    by (unfold getifaddrs; rewrite H; reflexivity).
  change initial_frame with (scratch (C.memset0 Pg.MAXPGPATH)).
  fold (holding_list w).
  unfold bind at 1. rewrite (for_each_ifa_run l Hv).
  destruct (aborted os l); reflexivity.
Qed.

(** *** The nodes that produce rows *)

Lemma emitted_are_ipv4 (l : list ifaddrs) :
  exists k, map fst (emitted os l) = firstn k (filter is_ipv4 l).
Proof.
  induction l as [|ifa rest [k IH]]; [now exists 0%nat|].
  cbn [emitted filter]. unfold is_ipv4 at 1.
  destruct (ifa_addr ifa) as [sa|]; [|now exists k].
  destruct (sa_family sa =? AF_INET); [|now exists k].
  destruct (gni_code os sa =? 0).
  - exists (S k). cbn. now rewrite IH.
  - now exists 0%nat.
Qed.

Lemma emitted_all (l : list ifaddrs) :
  aborted os l = None -> map fst (emitted os l) = filter is_ipv4 l.
Proof.
  induction l as [|ifa rest IH]; [reflexivity|].
  cbn [emitted aborted filter]. unfold is_ipv4 at 1.
  destruct (ifa_addr ifa) as [sa|]; [|exact IH].
  destruct (sa_family sa =? AF_INET); [|exact IH].
  destruct (gni_code os sa =? 0); [|discriminate].
  intros H. cbn. now rewrite IH.
Qed.

Lemma row_name_row_of (ifa : ifaddrs) (sa : sockaddr) :
  row_name (row_of os ifa sa) = ifa_name ifa.
Proof. reflexivity. Qed.

Lemma scan_rows_names (l : list ifaddrs) :
  map row_name (scan_rows os l) = map ifa_name (map fst (emitted os l)).
Proof.
  unfold scan_rows. rewrite !map_map. apply map_ext.
  intros [ifa sa]. reflexivity.
Qed.

Lemma aborted_none (l : list ifaddrs) :
  forallb (converts os) l = true -> aborted os l = None.
Proof.
  induction l as [|ifa rest IH]; [reflexivity|].
  cbn [forallb aborted]. unfold converts at 1. intros H.
  apply andb_true_iff in H. destruct H as [Hc Hr].
  destruct (ifa_addr ifa) as [sa|]; [|now apply IH].
  destruct (sa_family sa =? AF_INET); [|now apply IH].
  cbn in Hc. rewrite Hc. now apply IH.
Qed.


End RunFacts.

(** ** The counter reader *)

Section CounterReader.

Variable os : host_env.

Lemma first_line_digits (ds rest : string) :
  all_digits ds = true ->
  C.first_line (ds ++ rest) = (ds ++ C.first_line rest)%string.
Proof.
  induction ds as [|c ds IH]; cbn [append all_digits C.first_line];
    intros H; [reflexivity|].
  apply andb_true_iff in H. destruct H as [Hc Hd].
  replace (nat_of_ascii c =? 10)%nat with false; [now rewrite IH|].
  symmetry. apply Nat.eqb_neq. unfold C.isdigit in Hc.
  apply andb_true_iff in Hc. destruct Hc as [Hc _].
  apply Nat.leb_le in Hc. lia.
Qed.

Lemma stops_digits_first_line (rest : string) :
  stops_digits (C.first_line rest) = stops_digits rest.
Proof.
  destruct rest as [|c rest]; [reflexivity|].
  cbn [C.first_line]. now destruct (nat_of_ascii c =? 10)%nat.
Qed.

(** What the reader leaves in the counter when the file starts with a run
    of digits, with a minus sign and a run of digits, or has no digit. *)
Lemma counter_after_digits (file_name : string) (data : Z) (c : ascii)
    (ds rest : string) :
  os_file os file_name = Some (String c ds ++ rest)%string ->
  all_digits (String c ds) = true ->
  stops_digits rest = true ->
  counter_after os file_name data
  = C.to_uint64 (C.clamp_llong (decimal_value (String c ds))).
Proof.
  intros Hf Hd Hr. unfold counter_after. rewrite Hf.
  cbn [append]. change (String c (ds ++ rest)) with (String c ds ++ rest)%string.
  rewrite first_line_digits by assumption.
  rewrite CFacts.atoll_prefix; [reflexivity | assumption |].
  now rewrite stops_digits_first_line.
Qed.

Lemma counter_after_minus (file_name : string) (data : Z) (ds rest : string) :
  os_file os file_name = Some (String "-" ds ++ rest)%string ->
  all_digits ds = true ->
  stops_digits rest = true ->
  counter_after os file_name data
  = C.to_uint64 (C.clamp_llong (- decimal_value ds)).
Proof.
  intros Hf Hd Hr. unfold counter_after. rewrite Hf.
  cbn [append C.first_line].
  change (nat_of_ascii "-" =? 10)%nat with false. cbv iota.
  rewrite first_line_digits by assumption.
  change (String "-" (ds ++ C.first_line rest))
    with (String "-" ds ++ C.first_line rest)%string.
  rewrite CFacts.atoll_minus_prefix; [reflexivity | assumption |].
  now rewrite stops_digits_first_line.
Qed.

Lemma counter_after_no_digit (file_name : string) (data : Z)
    (content : string) :
  os_file os file_name = Some content ->
  content <> EmptyString -> no_digit content = true ->
  counter_after os file_name data = 0.
Proof.
  intros Hf Hne Hn. unfold counter_after. rewrite Hf.
  destruct content as [|c rest]; [contradiction|].
  rewrite CFacts.atoll_no_digit by now apply CFacts.no_digit_first_line.
  reflexivity.
Qed.


Lemma getline_nothing_read (content : string) (w w' : world) (line_size : Z)
    (line_buf : option string) :
  getline content w = (Ret (line_size, line_buf), w') ->
  (line_size <= 0 <-> content = EmptyString).
Proof.
  unfold getline. intros H. injection H as Hs _ _. subst line_size.
  destruct content as [|c rest].
  - split; [reflexivity | lia].
  - split; [|discriminate]. cbn [C.first_line].
    destruct (nat_of_ascii c =? 10)%nat; cbn [String.length]; lia.
Qed.

(** C9: [ReadFileContent] leaves the counter at its prior value when the
    file cannot be opened and when the first-line read delivers nothing
    ([line_size <= 0]); whenever it returns another value, the file was
    opened, was not empty, and the value is the parse of its first line. *)
Theorem C9_counter_kept_without_content (file_name : string) (v : Z)
    (w : world) :
  (os_file os file_name = None -> fst (ReadFileContent os file_name v w) = Ret v)
  /\ (forall (content : string) (w1 w2 : world) (line_size : Z)
        (line_buf : option string),
        os_file os file_name = Some content ->
        getline content w1 = (Ret (line_size, line_buf), w2) ->
        line_size <= 0 ->
        fst (ReadFileContent os file_name v w) = Ret v)
  /\ (forall v' : Z,
        fst (ReadFileContent os file_name v w) = Ret v' -> v' <> v ->
        exists content,
          os_file os file_name = Some content /\ content <> EmptyString
          /\ v' = C.to_uint64 (C.atoll (C.first_line content))).
Proof.
  rewrite ReadFileContent_run. cbn [fst]. unfold counter_after.
  split; [|split].
  - now intros ->.
  - intros content w1 w2 line_size line_buf Hf Hg Hs.
    apply (getline_nothing_read _ _ _ _ _ Hg) in Hs. subst content.
    now rewrite Hf.
  - intros v' Hr Hne. injection Hr as Hr.
    destruct (os_file os file_name) as [[|c rest]|]; try congruence.
    exists (String c rest). repeat split; congruence.
Qed.

(** C10: a first line that is a negative base-10 number is stored in the
    unsigned 64-bit counter modulo 2^64: for the text of -n with
    0 < n <= 2^63 the speed reader leaves 2^64 - n in the counter, and the
    datum made from the counter is that same large word, neither 0 nor
    negative. *)
Theorem C10_negative_speed_wraps (interface : string) (speed : Z) (w : world)
    (ds rest : string) :
  os_file os ("/sys/class/net/" ++ interface ++ "/speed")
  = Some (String "-" ds ++ rest)%string ->
  all_digits ds = true ->
  stops_digits rest = true ->
  0 < decimal_value ds <= 2 ^ 63 ->
  ReadSpeedMbps os interface speed w
  = (Ret (2 ^ 64 - decimal_value ds), w)
  /\ Pg.Int64GetDatumFast (2 ^ 64 - decimal_value ds)
     = Pg.Int64Datum (2 ^ 64 - decimal_value ds)
  /\ 2 ^ 63 <= 2 ^ 64 - decimal_value ds < 2 ^ 64
  /\ (forall (ifa : ifaddrs) (sa : sockaddr) (h : list ascii) (w' : world),
        valid_ifa ifa = true -> ifa_name ifa = interface ->
        ifa_addr ifa = Some sa -> sa_family sa = AF_INET ->
        gni_code os sa = 0 ->
        exists row : HeapTuple,
          tupstore (snd (loop_body os ifa (scratch h) w'))
          = tupstore w' ++ [row]
          /\ t_speed_mbps row
             = Some (Pg.Int64Datum (2 ^ 64 - decimal_value ds))).
Proof.
  intros Hf Hd Hr Hv.
  assert (Hc : forall data : Z,
             counter_after os ("/sys/class/net/" ++ interface ++ "/speed") data
             = 2 ^ 64 - decimal_value ds).
  { intros data. rewrite (counter_after_minus _ _ ds rest Hf Hd Hr).
    rewrite CFacts.clamp_llong_in_range
      by (unfold C.LLONG_MIN, C.LLONG_MAX; lia).
    unfold C.to_uint64, C.UINT64_MOD.
    replace (- decimal_value ds)
      with (2 ^ 64 - decimal_value ds + (-1) * 2 ^ 64) by lia.
    rewrite Z.mod_add by lia. apply Z.mod_small. lia. }
  split; [|split; [|split; [lia|]]].
  - unfold ReadSpeedMbps. rewrite ReadFileContent_run, Hc.
    unfold open_warning. now rewrite Hf, extend_nil.
  - unfold Pg.Int64GetDatumFast.
    rewrite CFacts.to_uint64_to_int64, CFacts.to_uint64_small by lia.
    reflexivity.
  - intros ifa sa h w' Hvalid Hname Ha Hfam Hcode.
    apply Z.eqb_eq in Hfam.
    exists (row_of os ifa sa).
    rewrite (loop_body_emits os ifa sa h w' Hvalid Ha Hfam Hcode).
    split; [reflexivity|].
    cbn [row_of t_speed_mbps counter_path]. rewrite Hname.
    now rewrite Hc.
Qed.

(** [ReadFileContent] always returns: it never leaves by an error report,
    it sends at most one report, at WARNING level, and afterwards every
    stream it opened is closed and every line buffer is freed. *)
Theorem ReadFileContent_returns (file_name : string) (data : Z) (w : world) :
  exists (v : Z) (reports : list Pg.ErrorData),
    ReadFileContent os file_name data w = (Ret v, extend reports [] w)
    /\ (List.length reports <= 1)%nat
    /\ Forall (fun e => Pg.elevel e = Pg.WARNING) reports.
Proof.
  exists (counter_after os file_name data), (open_warning os file_name).
  split; [apply ReadFileContent_run|].
  unfold open_warning. destruct (os_file os file_name); cbn.
  - split; [lia | constructor].
  - split; [lia | repeat constructor].
Qed.

End CounterReader.

(** ** The interface scanner *)

Section Scanner.

Variable os : host_env.

Lemma NoDup_firstn {A} (k : nat) (l : list A) : NoDup l -> NoDup (firstn k l).
Proof.
  intros H. rewrite <- (firstn_skipn k l) in H.
  now apply NoDup_app_remove_r in H.
Qed.

Lemma In_emitted (l : list ifaddrs) (ifa : ifaddrs) (sa : sockaddr) :
  aborted os l = None -> In ifa l ->
  ifa_addr ifa = Some sa -> sa_family sa = AF_INET ->
  In (ifa, sa) (emitted os l).
Proof.
  intros Hab Hin Ha Hf.
  induction l as [|node rest IH]; [contradiction|].
  cbn [emitted aborted] in *.
  destruct Hin as [-> | Hin].
  - rewrite Ha in *. rewrite Hf in *. cbn in *.
    destruct (gni_code os sa =? 0); [now left | discriminate].
  - destruct (ifa_addr node) as [sa'|]; [|now apply IH].
    destruct (sa_family sa' =? AF_INET); [|now apply IH].
    destruct (gni_code os sa' =? 0); [|discriminate].
    right. now apply IH.
Qed.

Lemma counter_path_fits (k : counter_kind) (interface : string) :
  (C.strlen interface < IFNAMSIZ)%nat ->
  (String.length (counter_path k interface) < Pg.MAXPGPATH)%nat.
Proof.
  unfold C.strlen, IFNAMSIZ, Pg.MAXPGPATH. intros H.
  destruct k; unfold counter_path;
    rewrite !CFacts.string_length_app; cbn [String.length]; lia.
Qed.

Lemma column_row_of (ifa : ifaddrs) (sa : sockaddr) (k : counter_kind) :
  column (row_of os ifa sa) (counter_column k)
  = Some (Pg.Int64Datum (counter_after os (counter_path k (ifa_name ifa)) 0)).
Proof. destruct k; reflexivity. Qed.

(** C4: when the enumeration of the interfaces fails, the scan is left by
    one report at ERROR level, the enumeration error; no row was stored and
    nothing is held. *)
Theorem C4_enumeration_failure_aborts (w : world) :
  os_getifaddrs os = None ->
  fst (ReadNetworkInformations os w) = Raise
  /\ tupstore (snd (ReadNetworkInformations os w)) = tupstore w
  /\ elog (snd (ReadNetworkInformations os w)) = elog w ++ [enumeration_error]
  /\ live_ifaddrs (snd (ReadNetworkInformations os w)) = live_ifaddrs w.
Proof.
  intros H. rewrite (ReadNetworkInformations_no_list os w H).
  unfold extend. cbn. now rewrite app_nil_r.
Qed.

(** C2, as amended: the scan stores one row per IPv4 address node, in the
    order of the enumeration: the names of the rows it adds are the names of
    the first [k] IPv4 nodes of the list, of all of them when the scan
    returns.  A name occurs as often as its interface has IPv4 address nodes,
    so the rows have distinct names when the IPv4 nodes have. *)
Theorem C2_one_row_per_ipv4_node (l : list ifaddrs) (w : world) :
  os_getifaddrs os = Some l -> forallb valid_ifa l = true ->
  exists (k : nat) (rows : list HeapTuple),
    tupstore (snd (ReadNetworkInformations os w)) = tupstore w ++ rows
    /\ map row_name rows = map ifa_name (firstn k (filter is_ipv4 l))
    /\ (fst (ReadNetworkInformations os w) = Ret tt ->
        map row_name rows = map ifa_name (filter is_ipv4 l))
    /\ (NoDup (map ifa_name (filter is_ipv4 l)) -> NoDup (map row_name rows)).
Proof.
  intros Hl Hv.
  destruct (emitted_are_ipv4 os l) as [k Hk].
  exists k, (scan_rows os l).
  rewrite (ReadNetworkInformations_run os l w Hl Hv).
  rewrite scan_rows_names, Hk.
  repeat split.
  - destruct (aborted os l); reflexivity.
  - destruct (aborted os l) eqn:Hab; [discriminate|]. intros _.
    rewrite <- Hk. now rewrite emitted_all.
  - intros Hnd. rewrite <- firstn_map. now apply NoDup_firstn.
Qed.

(** C5: when the file behind a counter cannot be opened, the reader sends
    one report at WARNING level that names the path, returns normally and
    leaves the counter at the value it was given; a scan that runs to its end
    stores a row for every IPv4 node of that interface, with 0 in the column
    of that counter and, in the column of each counter, the value read from
    that counter's own file. *)
Theorem C5_unopenable_counter_reads_zero (k : counter_kind)
    (interface : string) :
  (C.strlen interface < IFNAMSIZ)%nat ->
  os_file os (counter_path k interface) = None ->
  (forall (data : Z) (w : world),
      ReadCounter os k interface data w
      = (Ret data,
         extend
           [Pg.mkErrorData Pg.WARNING Pg.errcode_for_file_access
              ("can not open file " ++ counter_path k interface
                 ++ " for reading network statistics")] [] w))
  /\ (forall (l : list ifaddrs) (ifa : ifaddrs) (sa : sockaddr) (w : world),
        os_getifaddrs os = Some l -> forallb valid_ifa l = true ->
        forallb (converts os) l = true ->
        In ifa l -> ifa_name ifa = interface ->
        ifa_addr ifa = Some sa -> sa_family sa = AF_INET ->
        fst (ReadNetworkInformations os w) = Ret tt
        /\ exists (row : HeapTuple) (before after : list HeapTuple),
             tupstore (snd (ReadNetworkInformations os w))
             = tupstore w ++ before ++ row :: after
             /\ row_name row = interface
             /\ column row (counter_column k) = Some (Pg.Int64Datum 0)
             /\ forall k' : counter_kind,
                  column row (counter_column k')
                  = Some (Pg.Int64Datum
                            (counter_after os (counter_path k' interface) 0))).
Proof.
  intros Hlen Hnone. split.
  - intros data w. rewrite ReadCounter_run.
    unfold counter_after, open_warning. rewrite Hnone.
    now rewrite CFacts.snprintf_fits by now apply counter_path_fits.
  - intros l ifa sa w Hl Hv Hc Hin Hname Ha Hf.
    pose proof (aborted_none os l Hc) as Hab.
    rewrite (ReadNetworkInformations_run os l w Hl Hv), Hab.
    split; [reflexivity|].
    pose proof (In_emitted l ifa sa Hab Hin Ha Hf) as He.
    apply (in_map (fun e => row_of os (fst e) (snd e))) in He.
    fold (scan_rows os l) in He. cbn [fst snd] in He.
    apply in_split in He. destruct He as (before & after & He).
    exists (row_of os ifa sa), before, after.
    cbn [snd extend tupstore]. rewrite He.
    repeat split.
    + now rewrite row_name_row_of.
    + rewrite column_row_of, Hname. unfold counter_after. now rewrite Hnone.
    + intros k'. now rewrite column_row_of, Hname.
Qed.

(** C8, as amended: between two iterations the name, address and counter
    locals and the null flags are as before the loop; the conversion buffer
    is not reset and keeps what the last conversion left in it.  The rows an
    iteration stores do not depend on that content: started with any two
    contents [h1] and [h2] of the buffer, the iteration on a node stores the
    same rows. *)
Theorem C8_rows_independent_of_buffer (ifa : ifaddrs) (h1 h2 : list ascii)
    (w1 w2 : world) :
  valid_ifa ifa = true ->
  initial_frame = scratch (C.memset0 Pg.MAXPGPATH)
  /\ exists rows : list HeapTuple,
       tupstore (snd (loop_body os ifa (scratch h1) w1)) = tupstore w1 ++ rows
       /\ tupstore (snd (loop_body os ifa (scratch h2) w2)) = tupstore w2 ++ rows
       /\ (forall f' : frame,
             fst (loop_body os ifa (scratch h1) w1) = Ret f' ->
             f' = scratch (host f')).
Proof.
  intros Hv. split; [reflexivity|].
  destruct (ifa_addr ifa) as [sa|] eqn:Ha.
  - destruct (sa_family sa =? AF_INET) eqn:Hf.
    + destruct (gni_code os sa =? 0) eqn:Hc.
      * apply Z.eqb_eq in Hc. exists [row_of os ifa sa].
        rewrite !(loop_body_emits os ifa sa _ _ Hv Ha Hf Hc).
        repeat split. intros f' H. now injection H as <-.
      * apply Z.eqb_neq in Hc. exists [].
        rewrite !(loop_body_aborts os ifa sa _ _ Ha Hf Hc).
        cbn. rewrite !app_nil_r. repeat split. discriminate.
    + exists []. rewrite !(loop_body_other_family os ifa sa _ _ Ha Hf).
      cbn. rewrite !app_nil_r. repeat split. intros f' H. now injection H as <-.
  - exists []. rewrite !(loop_body_no_addr os ifa _ _ Ha).
    cbn. rewrite !app_nil_r. repeat split. intros f' H. now injection H as <-.
Qed.

(** A scan in which every IPv4 address converts returns and stores one row
    per IPv4 node, in the order of the enumeration. *)
Theorem scan_stores_every_ipv4_node (l : list ifaddrs) (w : world) :
  os_getifaddrs os = Some l -> forallb valid_ifa l = true ->
  forallb (converts os) l = true ->
  exists rows : list HeapTuple,
    ReadNetworkInformations os w
    = (Ret tt, extend (scan_log os l) rows w)
    /\ map row_name rows = map ifa_name (filter is_ipv4 l)
    /\ List.length rows = List.length (filter is_ipv4 l).
Proof.
  intros Hl Hv Hc. pose proof (aborted_none os l Hc) as Hab.
  exists (scan_rows os l).
  rewrite (ReadNetworkInformations_run os l w Hl Hv), Hab.
  split; [reflexivity|].
  assert (E : map row_name (scan_rows os l) = map ifa_name (filter is_ipv4 l))
    by now rewrite scan_rows_names, emitted_all.
  split; [exact E|].
  apply (f_equal (@List.length string)) in E.
  now rewrite !length_map in E.
Qed.

(** Whatever the scan does, every file it opened is closed and every line
    buffer is freed when it is left; the interface list is freed when the
    scan returns, and is still held when the scan is left by the report of
    a failed conversion. *)
Theorem scan_resources (l : list ifaddrs) (w : world) :
  os_getifaddrs os = Some l -> forallb valid_ifa l = true ->
  open_files (snd (ReadNetworkInformations os w)) = open_files w
  /\ line_bufs (snd (ReadNetworkInformations os w)) = line_bufs w
  /\ (fst (ReadNetworkInformations os w) = Ret tt ->
      live_ifaddrs (snd (ReadNetworkInformations os w)) = live_ifaddrs w)
  /\ (fst (ReadNetworkInformations os w) = Raise ->
      live_ifaddrs (snd (ReadNetworkInformations os w)) = S (live_ifaddrs w)).
Proof.
  intros Hl Hv. rewrite (ReadNetworkInformations_run os l w Hl Hv).
  destruct (aborted os l); cbn; repeat split; try reflexivity; discriminate.
Qed.

(** No row the scan stores has a null column: the null flag of the IPv4
    address is set only after the [ERROR] report, which is never reached. *)
Theorem scan_stores_no_null (l : list ifaddrs) (w : world) :
  os_getifaddrs os = Some l -> forallb valid_ifa l = true ->
  exists rows : list HeapTuple,
    tupstore (snd (ReadNetworkInformations os w)) = tupstore w ++ rows
    /\ forall (row : HeapTuple) (a : Anum),
         In row rows -> column row a <> None.
Proof.
  intros Hl Hv. exists (scan_rows os l).
  rewrite (ReadNetworkInformations_run os l w Hl Hv).
  split; [destruct (aborted os l); reflexivity|].
  intros row a Hin. unfold scan_rows in Hin.
  apply in_map_iff in Hin. destruct Hin as ([ifa sa] & <- & _).
  destruct a; discriminate.
Qed.

Lemma emitted_until_failure (before after : list ifaddrs) (ifa : ifaddrs)
    (sa : sockaddr) :
  forallb (converts os) before = true ->
  ifa_addr ifa = Some sa -> sa_family sa = AF_INET -> gni_code os sa <> 0 ->
  map fst (emitted os (before ++ ifa :: after)) = filter is_ipv4 before
  /\ aborted os (before ++ ifa :: after) = Some sa.
Proof.
  intros Hc Ha Hf Hg. apply Z.eqb_eq in Hf. apply Z.eqb_neq in Hg.
  induction before as [|node rest IH]; cbn [app emitted aborted filter].
  - rewrite Ha, Hf, Hg. split; reflexivity.
  - cbn [forallb] in Hc. apply andb_true_iff in Hc. destruct Hc as [Hn Hr].
    specialize (IH Hr). destruct IH as [IH1 IH2].
    unfold converts in Hn. unfold is_ipv4 at 1.
    destruct (ifa_addr node) as [sa'|]; [|now split].
    destruct (sa_family sa' =? AF_INET); [|now split].
    cbn in Hn. rewrite Hn. cbn. now rewrite IH1.
Qed.

(** The scan stops at the first IPv4 node whose address does not convert:
    it is left by the [ERROR] report, it has stored rows for the IPv4 nodes
    before that node only, and it still holds the interface list. *)
Theorem scan_stops_at_failed_conversion (before after : list ifaddrs)
    (ifa : ifaddrs) (sa : sockaddr) (w : world) :
  os_getifaddrs os = Some (before ++ ifa :: after) ->
  forallb valid_ifa (before ++ ifa :: after) = true ->
  forallb (converts os) before = true ->
  ifa_addr ifa = Some sa -> sa_family sa = AF_INET -> gni_code os sa <> 0 ->
  exists rows : list HeapTuple,
    fst (ReadNetworkInformations os w) = Raise
    /\ tupstore (snd (ReadNetworkInformations os w)) = tupstore w ++ rows
    /\ map row_name rows = map ifa_name (filter is_ipv4 before)
    /\ last (elog (snd (ReadNetworkInformations os w))) enumeration_error
       = conversion_error os sa
    /\ live_ifaddrs (snd (ReadNetworkInformations os w))
       = S (live_ifaddrs w).
Proof.
  intros Hl Hv Hc Ha Hf Hg.
  destruct (emitted_until_failure before after ifa sa Hc Ha Hf Hg) as [He Hab].
  exists (scan_rows os (before ++ ifa :: after)).
  rewrite (ReadNetworkInformations_run os _ w Hl Hv), Hab.
  cbn [fst snd extend holding_list elog tupstore live_ifaddrs].
  repeat split.
  - now rewrite scan_rows_names, He.
  - unfold scan_log. rewrite Hab, app_assoc. apply last_last.
Qed.

(** Two scans in a row of an unchanged host store the same rows twice. *)
Theorem scan_twice (l : list ifaddrs) (w : world) :
  os_getifaddrs os = Some l -> forallb valid_ifa l = true ->
  exists rows : list HeapTuple,
    tupstore (snd (ReadNetworkInformations os w)) = tupstore w ++ rows
    /\ tupstore
         (snd (ReadNetworkInformations os
                 (snd (ReadNetworkInformations os w))))
       = (tupstore w ++ rows) ++ rows.
Proof.
  intros Hl Hv. exists (scan_rows os l).
  rewrite !(ReadNetworkInformations_run os l _ Hl Hv).
  destruct (aborted os l); split; reflexivity.
Qed.

End Scanner.

(** ** The scan on the sample hosts *)

(** The scenario of the design document: eth0 with the address 10.0.0.5 and
    500 received bytes, every other counter file missing, and lo without an
    IPv4 address.  The scan returns with one row, for eth0. *)
Example scan_plain_host :
  fst (ReadNetworkInformations plain_host empty_world) = Ret tt
  /\ tupstore (snd (ReadNetworkInformations plain_host empty_world))
     = [ {| t_interface_name := Some (Pg.TextDatum "eth0");
            t_ipv4_address := Some (Pg.TextDatum "10.0.0.5");
            t_ipv6_address := Some (Pg.TextDatum "");
            t_speed_mbps := Some (Pg.Int64Datum 0);
            t_tx_bytes := Some (Pg.Int64Datum 0);
            t_tx_packets := Some (Pg.Int64Datum 0);
            t_tx_errors := Some (Pg.Int64Datum 0);
            t_tx_dropped := Some (Pg.Int64Datum 0);
            t_rx_bytes := Some (Pg.Int64Datum 500);
            t_rx_packets := Some (Pg.Int64Datum 0);
            t_rx_errors := Some (Pg.Int64Datum 0);
            t_rx_dropped := Some (Pg.Int64Datum 0) |} ].
Proof. split; vm_compute; reflexivity. Qed.

(** C1: on [failing_host] the conversion of the address of eth1, the second
    of three IPv4 interfaces, fails.  The report is sent at ERROR level, so
    the scan is left there: the only row is the one of eth0, stored before;
    there is no row for eth1 with a null address, and eth2 is never
    reached. *)
Theorem C1_failed_conversion_leaves_the_scan :
  fst (ReadNetworkInformations failing_host empty_world) = Raise
  /\ map row_name
       (tupstore (snd (ReadNetworkInformations failing_host empty_world)))
     = ["eth0"]
  /\ filter (fun e => Pg.ERROR <=? Pg.elevel e)
       (elog (snd (ReadNetworkInformations failing_host empty_world)))
     = [ Pg.mkErrorData Pg.ERROR Pg.ERRCODE_INVALID_PARAMETER_VALUE
           "getnameinfo() failed: Memory allocation failure" ].
Proof. repeat split; vm_compute; reflexivity. Qed.

(** C3: on [failing_host] the scan is left by the report of the failed
    conversion while it holds the interface list: [freeifaddrs] is not
    reached.  No file and no line buffer is left behind. *)
Theorem C3_interface_list_held_after_failed_conversion :
  fst (ReadNetworkInformations failing_host empty_world) = Raise
  /\ live_ifaddrs (snd (ReadNetworkInformations failing_host empty_world))
     = 1%nat
  /\ open_files (snd (ReadNetworkInformations failing_host empty_world))
     = 0%nat
  /\ line_bufs (snd (ReadNetworkInformations failing_host empty_world))
     = 0%nat.
Proof. repeat split; vm_compute; reflexivity. Qed.

(** C7: on [failing_host] the enumeration has three IPv4 nodes and the scan
    stores one row. *)
Theorem C7_fewer_rows_than_ipv4_nodes :
  exists l : list ifaddrs,
    os_getifaddrs failing_host = Some l
    /\ List.length (filter is_ipv4 l) = 3%nat
    /\ List.length
         (tupstore (snd (ReadNetworkInformations failing_host empty_world)))
       = 1%nat.
Proof. eexists. repeat split; vm_compute; reflexivity. Qed.

(** C2, as stated, fails on [alias_host]: eth0 has two IPv4 addresses and
    the scan stores two rows named eth0. *)
Lemma C2_two_rows_for_one_name :
  map row_name
    (tupstore (snd (ReadNetworkInformations alias_host empty_world)))
  = ["eth0"; "eth0"]
  /\ ~ NoDup
         (map row_name
            (tupstore (snd (ReadNetworkInformations alias_host empty_world)))).
Proof.
  assert (E : map row_name
                (tupstore (snd (ReadNetworkInformations alias_host empty_world)))
              = ["eth0"; "eth0"]) by (vm_compute; reflexivity).
  split; [exact E|]. rewrite E. intros H.
  inversion H as [|x rest Hnotin _]. apply Hnotin. now left.
Qed.

(** C8, as stated, fails on [plain_host]: after the iteration on the IPv4
    node of eth0 the conversion buffer is not zeroed; it holds the text of
    the address of eth0. *)
Lemma C8_conversion_buffer_not_reset :
  exists (f' : frame) (w' : world),
    loop_body plain_host (ipv4_node "eth0" [10; 0; 0; 5]) initial_frame
      empty_world = (Ret f', w')
    /\ C.c_str (host f') = "10.0.0.5"
    /\ host f' <> host initial_frame.
Proof.
  eexists. eexists. split; [vm_compute; reflexivity|].
  split; [vm_compute; reflexivity|].
  intros H. apply (f_equal C.c_str) in H. vm_compute in H. discriminate H.
Qed.

(** *** Instances *)

(** C2, as amended, on [plain_host]. *)
Lemma C2_one_row_per_ipv4_node_plain :
  exists (k : nat) (rows : list HeapTuple),
    tupstore (snd (ReadNetworkInformations plain_host empty_world))
    = tupstore empty_world ++ rows
    /\ map row_name rows
       = map ifa_name
           (firstn k
              (filter is_ipv4
                 [packet_node "lo"; packet_node "eth0";
                  ipv4_node "eth0" [10; 0; 0; 5]]))
    /\ (fst (ReadNetworkInformations plain_host empty_world) = Ret tt ->
        map row_name rows
        = map ifa_name
            (filter is_ipv4
               [packet_node "lo"; packet_node "eth0";
                ipv4_node "eth0" [10; 0; 0; 5]]))
    /\ (NoDup
          (map ifa_name
             (filter is_ipv4
                [packet_node "lo"; packet_node "eth0";
                 ipv4_node "eth0" [10; 0; 0; 5]])) ->
        NoDup (map row_name rows)).
Proof.
  apply (C2_one_row_per_ipv4_node plain_host); reflexivity.
Defined.

(** C4 on [no_list_host]. *)
Lemma C4_enumeration_failure_aborts_no_list :
  os_getifaddrs no_list_host = None
  /\ fst (ReadNetworkInformations no_list_host empty_world) = Raise
  /\ tupstore (snd (ReadNetworkInformations no_list_host empty_world))
     = tupstore empty_world
  /\ elog (snd (ReadNetworkInformations no_list_host empty_world))
     = elog empty_world ++ [enumeration_error]
  /\ live_ifaddrs (snd (ReadNetworkInformations no_list_host empty_world))
     = live_ifaddrs empty_world.
Proof.
  split; [reflexivity|].
  apply (C4_enumeration_failure_aborts no_list_host empty_world).
  reflexivity.
Defined.

(** C5 for the transmitted-bytes counter of eth0 on [plain_host], whose file
    is missing. *)
Lemma C5_unopenable_counter_reads_zero_plain :
  (C.strlen "eth0" < IFNAMSIZ)%nat
  /\ os_file plain_host (counter_path TransmitBytes "eth0") = None
  /\ (forall (data : Z) (w : world),
         ReadCounter plain_host TransmitBytes "eth0" data w
         = (Ret data,
            extend
              [Pg.mkErrorData Pg.WARNING Pg.errcode_for_file_access
                 ("can not open file " ++ counter_path TransmitBytes "eth0"
                    ++ " for reading network statistics")] [] w))
  /\ (forall (l : list ifaddrs) (ifa : ifaddrs) (sa : sockaddr) (w : world),
        os_getifaddrs plain_host = Some l -> forallb valid_ifa l = true ->
        forallb (converts plain_host) l = true ->
        In ifa l -> ifa_name ifa = "eth0" ->
        ifa_addr ifa = Some sa -> sa_family sa = AF_INET ->
        fst (ReadNetworkInformations plain_host w) = Ret tt
        /\ exists (row : HeapTuple) (before after : list HeapTuple),
             tupstore (snd (ReadNetworkInformations plain_host w))
             = tupstore w ++ before ++ row :: after
             /\ row_name row = "eth0"
             /\ column row (counter_column TransmitBytes)
                = Some (Pg.Int64Datum 0)
             /\ forall k' : counter_kind,
                  column row (counter_column k')
                  = Some (Pg.Int64Datum
                            (counter_after plain_host
                               (counter_path k' "eth0") 0))).
Proof.
  assert (Hlen : (C.strlen "eth0" < IFNAMSIZ)%nat) by (vm_compute; lia).
  assert (Hnone : os_file plain_host (counter_path TransmitBytes "eth0") = None)
    by reflexivity.
  split; [exact Hlen|]. split; [exact Hnone|].
  exact (C5_unopenable_counter_reads_zero plain_host TransmitBytes "eth0"
           Hlen Hnone).
Defined.

(** C8, as amended, for the IPv4 node of eth0 on [plain_host], started once
    with a zeroed conversion buffer and once with the text of another
    address in it. *)
Lemma C8_rows_independent_of_buffer_plain :
  valid_ifa (ipv4_node "eth0" [10; 0; 0; 5]) = true
  /\ initial_frame = scratch (C.memset0 Pg.MAXPGPATH)
  /\ exists rows : list HeapTuple,
       tupstore
         (snd (loop_body plain_host (ipv4_node "eth0" [10; 0; 0; 5])
                 (scratch (C.memset0 Pg.MAXPGPATH)) empty_world))
       = tupstore empty_world ++ rows
       /\ tupstore
            (snd (loop_body plain_host (ipv4_node "eth0" [10; 0; 0; 5])
                    (scratch (C.put_cstring (C.memset0 Pg.MAXPGPATH) "192.168.1.20"))
                    empty_world))
          = tupstore empty_world ++ rows
       /\ (forall f' : frame,
             fst (loop_body plain_host (ipv4_node "eth0" [10; 0; 0; 5])
                    (scratch (C.memset0 Pg.MAXPGPATH)) empty_world) = Ret f' ->
             f' = scratch (host f')).
Proof.
  split; [reflexivity|].
  apply (C8_rows_independent_of_buffer plain_host). reflexivity.
Defined.

(** C10 on [virtual_host], whose speed file reads -1. *)
Lemma C10_negative_speed_wraps_virtual :
  os_file virtual_host ("/sys/class/net/" ++ "veth0" ++ "/speed")
  = Some (String "-" "1" ++ newline)%string
  /\ 0 < decimal_value "1" <= 2 ^ 63
  /\ ReadSpeedMbps virtual_host "veth0" 0 empty_world
     = (Ret (2 ^ 64 - decimal_value "1"), empty_world)
  /\ Pg.Int64GetDatumFast (2 ^ 64 - decimal_value "1")
     = Pg.Int64Datum (2 ^ 64 - decimal_value "1")
  /\ 2 ^ 63 <= 2 ^ 64 - decimal_value "1" < 2 ^ 64
  /\ (forall (ifa : ifaddrs) (sa : sockaddr) (h : list ascii) (w' : world),
        valid_ifa ifa = true -> ifa_name ifa = "veth0" ->
        ifa_addr ifa = Some sa -> sa_family sa = AF_INET ->
        gni_code virtual_host sa = 0 ->
        exists row : HeapTuple,
          tupstore (snd (loop_body virtual_host ifa (scratch h) w'))
          = tupstore w' ++ [row]
          /\ t_speed_mbps row
             = Some (Pg.Int64Datum (2 ^ 64 - decimal_value "1"))).
Proof.
  assert (Hv : 0 < decimal_value "1" <= 2 ^ 63) by (vm_compute; split; congruence).
  split; [reflexivity|]. split; [exact Hv|].
  apply (C10_negative_speed_wraps virtual_host "veth0" 0 empty_world "1"
           newline); [reflexivity | reflexivity | reflexivity | exact Hv].
Defined.


(** C9 on [virtual_host]: a missing file and an empty file. *)
Lemma C9_counter_kept_virtual :
  fst (ReadFileContent virtual_host
         "/sys/class/net/veth0/statistics/tx_dropped" 42 empty_world) = Ret 42
  /\ fst (ReadFileContent virtual_host
            "/sys/class/net/veth0/statistics/tx_errors" 42 empty_world) = Ret 42.
Proof.
  split.
  - apply (proj1 (C9_counter_kept_without_content virtual_host
                    "/sys/class/net/veth0/statistics/tx_dropped" 42
                    empty_world)).
    reflexivity.
  - apply (proj1 (proj2 (C9_counter_kept_without_content virtual_host
                           "/sys/class/net/veth0/statistics/tx_errors" 42
                           empty_world))
             EmptyString empty_world
             (snd (getline EmptyString empty_world)) (-1) (Some EmptyString));
      [reflexivity | reflexivity | lia].
Defined.

(** The scan of [plain_host] stores a row for its IPv4 node. *)
Lemma scan_stores_every_ipv4_node_plain :
  forallb (converts plain_host)
    [packet_node "lo"; packet_node "eth0"; ipv4_node "eth0" [10; 0; 0; 5]]
  = true
  /\ exists rows : list HeapTuple,
       ReadNetworkInformations plain_host empty_world
       = (Ret tt,
          extend
            (scan_log plain_host
               [packet_node "lo"; packet_node "eth0";
                ipv4_node "eth0" [10; 0; 0; 5]])
            rows empty_world)
       /\ map row_name rows
          = map ifa_name
              (filter is_ipv4
                 [packet_node "lo"; packet_node "eth0";
                  ipv4_node "eth0" [10; 0; 0; 5]])
       /\ List.length rows
          = List.length
              (filter is_ipv4
                 [packet_node "lo"; packet_node "eth0";
                  ipv4_node "eth0" [10; 0; 0; 5]]).
Proof.
  split; [reflexivity|].
  apply (scan_stores_every_ipv4_node plain_host); reflexivity.
Defined.

(** The resources after the scan of [failing_host]. *)
Lemma scan_resources_failing :
  open_files (snd (ReadNetworkInformations failing_host empty_world))
  = open_files empty_world
  /\ line_bufs (snd (ReadNetworkInformations failing_host empty_world))
     = line_bufs empty_world
  /\ (fst (ReadNetworkInformations failing_host empty_world) = Ret tt ->
      live_ifaddrs (snd (ReadNetworkInformations failing_host empty_world))
      = live_ifaddrs empty_world)
  /\ (fst (ReadNetworkInformations failing_host empty_world) = Raise ->
      live_ifaddrs (snd (ReadNetworkInformations failing_host empty_world))
      = S (live_ifaddrs empty_world)).
Proof.
  apply (scan_resources failing_host
           [ipv4_node "eth0" [10; 0; 0; 5]; ipv4_node "eth1" [10; 0; 0; 7];
            ipv4_node "eth2" [10; 0; 0; 9]]); reflexivity.
Defined.

(** Two scans of [alias_host]. *)
Lemma scan_twice_alias :
  exists rows : list HeapTuple,
    tupstore (snd (ReadNetworkInformations alias_host empty_world))
    = tupstore empty_world ++ rows
    /\ tupstore
         (snd (ReadNetworkInformations alias_host
                 (snd (ReadNetworkInformations alias_host empty_world))))
       = (tupstore empty_world ++ rows) ++ rows.
Proof.
  apply (scan_twice alias_host
           [ipv4_node "eth0" [10; 0; 0; 5]; ipv4_node "eth0" [10; 0; 0; 6]]);
    reflexivity.
Defined.

(** The rows of [failing_host] have no null column. *)
Lemma scan_stores_no_null_failing :
  exists rows : list HeapTuple,
    tupstore (snd (ReadNetworkInformations failing_host empty_world))
    = tupstore empty_world ++ rows
    /\ forall (row : HeapTuple) (a : Anum),
         In row rows -> column row a <> None.
Proof.
  apply (scan_stores_no_null failing_host
           [ipv4_node "eth0" [10; 0; 0; 5]; ipv4_node "eth1" [10; 0; 0; 7];
            ipv4_node "eth2" [10; 0; 0; 9]]); reflexivity.
Defined.

(** The scan of [failing_host] stops at eth1. *)
Lemma scan_stops_at_failed_conversion_failing :
  exists rows : list HeapTuple,
    fst (ReadNetworkInformations failing_host empty_world) = Raise
    /\ tupstore (snd (ReadNetworkInformations failing_host empty_world))
       = tupstore empty_world ++ rows
    /\ map row_name rows
       = map ifa_name (filter is_ipv4 [ipv4_node "eth0" [10; 0; 0; 5]])
    /\ last (elog (snd (ReadNetworkInformations failing_host empty_world)))
         enumeration_error
       = conversion_error failing_host
           {| sa_family := AF_INET; sa_data := [10; 0; 0; 7] |}
    /\ live_ifaddrs (snd (ReadNetworkInformations failing_host empty_world))
       = S (live_ifaddrs empty_world).
Proof.
  apply (scan_stops_at_failed_conversion failing_host
           [ipv4_node "eth0" [10; 0; 0; 5]] [ipv4_node "eth2" [10; 0; 0; 9]]
           (ipv4_node "eth1" [10; 0; 0; 7]));
    [reflexivity | reflexivity | reflexivity | reflexivity | reflexivity
    | vm_compute; discriminate].
Defined.

(** * Further properties of the counter reader *)

Section ReaderTexts.

Variable os : host_env.

Lemma all_digits_string_of_uint (d : Decimal.uint) :
  all_digits (NilEmpty.string_of_uint d) = true.
Proof. induction d; cbn [NilEmpty.string_of_uint all_digits]; auto. Qed.

Lemma digits_acc_pos_uint (d : Decimal.uint) (rest : string) (acc : positive) :
  stops_digits rest = true ->
  C.digits_acc (NilEmpty.string_of_uint d ++ rest) (Z.pos acc)
  = Z.pos (Pos.of_uint_acc d acc).
Proof.
  intros Hr. revert acc.
  induction d; intros acc;
    cbn [NilEmpty.string_of_uint append C.digits_acc Pos.of_uint_acc];
    [now apply CFacts.digits_acc_stop | ..];
    match goal with
    | |- context [C.isdigit ?c] => change (C.isdigit c) with true
    end; cbv iota;
    match goal with
    | |- context [C.digit_val ?c] =>
        let v := eval vm_compute in (C.digit_val c) in
        change (C.digit_val c) with v
    end; rewrite <- IHd; f_equal; lia.
Qed.

Lemma digits_acc_uint (d : Decimal.uint) (rest : string) :
  stops_digits rest = true ->
  C.digits_acc (NilEmpty.string_of_uint d ++ rest) 0 = Z.of_N (Pos.of_uint d).
Proof.
  intros Hr.
  induction d;
    cbn [NilEmpty.string_of_uint append C.digits_acc Pos.of_uint];
    [now apply CFacts.digits_acc_stop | ..];
    match goal with
    | |- context [C.isdigit ?c] => change (C.isdigit c) with true
    end; cbv iota;
    match goal with
    | |- context [C.digit_val ?c] =>
        let v := eval vm_compute in (C.digit_val c) in
        change (C.digit_val c) with v
    end; cbn [Z.mul Z.add Z.of_N];
    [exact IHd | now apply digits_acc_pos_uint ..].
Qed.

(** The text of a number is a non-empty run of digits that denotes it. *)
Lemma decimal_text_value (n : Z) :
  0 <= n ->
  all_digits (decimal_text n) = true
  /\ decimal_text n <> EmptyString
  /\ decimal_value (decimal_text n) = n.
Proof.
  intros Hn. unfold decimal_text. split; [apply all_digits_string_of_uint|].
  split.
  - destruct (Z.to_N n) as [|p]; [discriminate|]. cbn [N.to_uint].
    pose proof (DecimalPos.Unsigned.to_uint_nonnil p) as Hp.
    destruct (Pos.to_uint p); [contradiction | discriminate ..].
  - pose proof (CFacts.digits_acc_prefix
                  (NilEmpty.string_of_uint (N.to_uint (Z.to_N n)))
                  EmptyString 0 (all_digits_string_of_uint _) eq_refl) as P.
    rewrite Z.mul_0_l, Z.add_0_l in P. rewrite <- P.
    rewrite digits_acc_uint by reflexivity.
    change (Pos.of_uint (N.to_uint (Z.to_N n)))
      with (N.of_uint (N.to_uint (Z.to_N n))).
    rewrite DecimalN.Unsigned.of_to. now apply Z2N.id.
Qed.

Lemma ReadFileContent_opened (file_name content : string) (data : Z)
    (w : world) :
  os_file os file_name = Some content -> content <> EmptyString ->
  ReadFileContent os file_name data w
  = (Ret (C.to_uint64 (C.atoll (C.first_line content))), w).
Proof.
  intros Hf Hne. rewrite ReadFileContent_run.
  unfold counter_after, open_warning. rewrite Hf, extend_nil.
  destruct content; [contradiction | reflexivity].
Qed.

Lemma to_uint64_clamp_nonneg (v : Z) :
  0 <= v -> C.to_uint64 (C.clamp_llong v) = Z.min v C.LLONG_MAX.
Proof.
  intros Hv. unfold C.clamp_llong.
  destruct (v <? C.LLONG_MIN) eqn:E1;
    [apply Z.ltb_lt in E1; unfold C.LLONG_MIN in E1; lia|].
  destruct (C.LLONG_MAX <? v) eqn:E2.
  - apply Z.ltb_lt in E2. rewrite Z.min_r by lia.
    apply CFacts.to_uint64_small. unfold C.LLONG_MAX. lia.
  - apply Z.ltb_ge in E2. rewrite Z.min_l by lia.
    apply CFacts.to_uint64_small. unfold C.LLONG_MAX in E2. lia.
Qed.

(** Round trip with the kernel's printing: a counter file that holds the
    decimal text of [n] and a newline reads back as [n] when [n] fits
    [long long]; a larger unsigned counter reads back as LLONG_MAX.  What
    follows the first line plays no part. *)
Theorem ReadFileContent_reads_back_decimal (file_name rest : string)
    (data n : Z) (w : world) :
  0 <= n ->
  os_file os file_name = Some (decimal_text n ++ newline ++ rest)%string ->
  ReadFileContent os file_name data w = (Ret (Z.min n C.LLONG_MAX), w)
  /\ (n <= C.LLONG_MAX -> ReadFileContent os file_name data w = (Ret n, w)).
Proof.
  intros Hn Hf.
  destruct (decimal_text_value n Hn) as (Hd & Hne & Hv).
  assert (E : ReadFileContent os file_name data w
              = (Ret (Z.min n C.LLONG_MAX), w)).
  { destruct (decimal_text n) as [|c ds] eqn:Et; [contradiction|].
    rewrite ReadFileContent_run.
    rewrite (counter_after_digits os _ _ c ds (newline ++ rest) Hf Hd eq_refl).
    unfold open_warning. rewrite Hf, extend_nil, Hv.
    now rewrite to_uint64_clamp_nonneg. }
  split; [exact E|]. intros Hmax. rewrite E. now rewrite Z.min_l.
Qed.

Lemma first_line_until_newline (line rest : string) :
  no_newline line = true ->
  C.first_line (line ++ newline ++ rest) = (line ++ newline)%string.
Proof.
  induction line as [|c line IH]; cbn [append no_newline C.first_line];
    intros H; [reflexivity|].
  apply andb_true_iff in H. destruct H as [Hc Hl].
  apply negb_true_iff in Hc. rewrite Hc. now rewrite IH.
Qed.

Lemma digits_acc_app_newline (s : string) (acc : Z) :
  C.digits_acc (s ++ newline) acc = C.digits_acc s acc.
Proof.
  revert acc. induction s as [|c s IH]; intros acc;
    cbn [append C.digits_acc]; [reflexivity|].
  destruct (C.isdigit c); [apply IH | reflexivity].
Qed.

Lemma skip_space_app_newline (s : string) :
  C.skip_space (s ++ newline)
  = match C.skip_space s with
    | EmptyString => EmptyString
    | String c t => String c (t ++ newline)
    end.
Proof.
  induction s as [|c s IH]; cbn [append C.skip_space]; [reflexivity|].
  destruct (C.isspace c); [exact IH | reflexivity].
Qed.

(** The newline that ends the line does not change what [atoll] reads. *)
Lemma atoll_app_newline (s : string) : C.atoll (s ++ newline) = C.atoll s.
Proof.
  unfold C.atoll. rewrite skip_space_app_newline.
  destruct (C.skip_space s) as [|c t]; [reflexivity|].
  pose proof (digits_acc_app_newline (String c t) 0) as Hc.
  cbn [append] in Hc.
  pose proof (digits_acc_app_newline t 0) as Ht.
  destruct c as [[] [] [] [] [] [] [] []]; rewrite ?Hc, ?Ht; reflexivity.
Qed.

(** Only the first line of a counter file is read: the value left in the
    counter is the parse of the text before the first newline, whatever
    the file holds after it. *)
Theorem ReadFileContent_reads_first_line_only (file_name line rest : string)
    (data : Z) (w : world) :
  no_newline line = true ->
  os_file os file_name = Some (line ++ newline ++ rest)%string ->
  ReadFileContent os file_name data w
  = (Ret (C.to_uint64 (C.atoll line)), w).
Proof.
  intros Hl Hf.
  rewrite (ReadFileContent_opened _ _ data w Hf)
    by (destruct line; discriminate).
  now rewrite first_line_until_newline, atoll_app_newline.
Qed.

Lemma skip_space_app_blank (ws s : string) :
  all_space ws = true -> C.skip_space (ws ++ s) = C.skip_space s.
Proof.
  induction ws as [|c ws IH]; cbn [append all_space C.skip_space];
    intros H; [reflexivity|].
  apply andb_true_iff in H. destruct H as [Hc Hw]. rewrite Hc. now apply IH.
Qed.

Lemma first_line_app_blank (ws s : string) :
  no_newline ws = true ->
  C.first_line (ws ++ s) = (ws ++ C.first_line s)%string.
Proof.
  induction ws as [|c ws IH]; cbn [append no_newline C.first_line];
    intros H; [reflexivity|].
  apply andb_true_iff in H. destruct H as [Hc Hw].
  apply negb_true_iff in Hc. rewrite Hc. now rewrite IH.
Qed.

(** White space before the number is skipped: blanks and tabs in front of a
    run of digits on the first line do not change the value read. *)
Theorem ReadFileContent_skips_leading_blanks (file_name ws rest : string)
    (c : ascii) (ds : string) (data : Z) (w : world) :
  all_space ws = true -> no_newline ws = true ->
  all_digits (String c ds) = true -> stops_digits rest = true ->
  os_file os file_name = Some (ws ++ String c ds ++ rest)%string ->
  ReadFileContent os file_name data w
  = (Ret (Z.min (decimal_value (String c ds)) C.LLONG_MAX), w).
Proof.
  intros Hs Hn Hd Hr Hf.
  rewrite (ReadFileContent_opened _ _ data w Hf)
    by (destruct ws; discriminate).
  rewrite first_line_app_blank by assumption.
  change (String c ds ++ rest)%string with (String c (ds ++ rest)).
  cbn [C.first_line].
  replace (nat_of_ascii c =? 10)%nat with false.
  2:{ symmetry. apply Nat.eqb_neq. cbn [all_digits] in Hd.
      apply andb_true_iff in Hd. destruct Hd as [Hc _].
      unfold C.isdigit in Hc. apply andb_true_iff in Hc.
      destruct Hc as [Hc _]. apply Nat.leb_le in Hc. lia. }
  pose proof Hd as Hd'. cbn [all_digits] in Hd'.
  apply andb_true_iff in Hd'. destruct Hd' as [_ Hds].
  rewrite (first_line_digits ds rest Hds).
  unfold C.atoll. rewrite skip_space_app_blank by assumption. fold (C.atoll (String c (ds ++ C.first_line rest))).
  change (String c (ds ++ C.first_line rest))
    with (String c ds ++ C.first_line rest)%string.
  rewrite CFacts.atoll_prefix
    by (try assumption; now rewrite stops_digits_first_line).
  apply f_equal2; [|reflexivity]. f_equal.
  apply to_uint64_clamp_nonneg. now apply CFacts.decimal_value_nonneg.
Qed.

Lemma first_line_no_newline (s : string) :
  no_newline s = true -> C.first_line s = s.
Proof.
  induction s as [|c s IH]; cbn [no_newline C.first_line]; intros H;
    [reflexivity|].
  apply andb_true_iff in H. destruct H as [Hc Hs].
  apply negb_true_iff in Hc. rewrite Hc. now rewrite IH.
Qed.

(** C6, as amended: a counter source that opens and is not empty is parsed
    permissively as a base-10 integer, and only its first line is.  A file
    that holds 12345 and a newline yields 12345.  A file that starts with a
    run of digits yields the value of the run when that value is at most
    LLONG_MAX, and LLONG_MAX when it is larger, whatever follows the run.
    A non-empty file without any digit yields 0.  In general the counter
    receives the [atoll] of the text before the first newline, or of the
    whole text when there is no newline; what follows the first newline is
    not read.  An empty file leaves the counter at the value passed in.  In
    each case the reader returns normally, sends no report and holds no
    resource afterwards. *)
Theorem C6_permissive_base10_parse (file_name : string) (data : Z) (w : world) :
  (os_file os file_name = Some ("12345" ++ newline)%string ->
   ReadFileContent os file_name data w = (Ret 12345, w))
  /\ (forall (c : ascii) (ds rest : string),
        os_file os file_name = Some (String c ds ++ rest)%string ->
        all_digits (String c ds) = true ->
        stops_digits rest = true ->
        ReadFileContent os file_name data w
        = (Ret (Z.min (decimal_value (String c ds)) C.LLONG_MAX), w)
        /\ (decimal_value (String c ds) <= C.LLONG_MAX ->
            ReadFileContent os file_name data w
            = (Ret (decimal_value (String c ds)), w)))
  /\ (forall content : string,
        os_file os file_name = Some content ->
        content <> EmptyString -> no_digit content = true ->
        ReadFileContent os file_name data w = (Ret 0, w))
  /\ (forall line rest : string,
        os_file os file_name = Some (line ++ newline ++ rest)%string ->
        no_newline line = true ->
        ReadFileContent os file_name data w
        = (Ret (C.to_uint64 (C.atoll line)), w))
  /\ (forall content : string,
        os_file os file_name = Some content ->
        content <> EmptyString -> no_newline content = true ->
        ReadFileContent os file_name data w
        = (Ret (C.to_uint64 (C.atoll content)), w))
  /\ (os_file os file_name = Some EmptyString ->
      ReadFileContent os file_name data w = (Ret data, w)).
Proof.
  assert (general : forall (c : ascii) (ds rest : string),
    os_file os file_name = Some (String c ds ++ rest)%string ->
    all_digits (String c ds) = true ->
    stops_digits rest = true ->
    ReadFileContent os file_name data w
    = (Ret (Z.min (decimal_value (String c ds)) C.LLONG_MAX), w)).
  { intros c ds rest Hf Hd Hr.
    rewrite ReadFileContent_run.
    rewrite (counter_after_digits os _ _ c ds rest Hf Hd Hr).
    unfold open_warning. rewrite Hf, extend_nil.
    rewrite to_uint64_clamp_nonneg
      by now apply CFacts.decimal_value_nonneg.
    reflexivity. }
  repeat apply conj.
  - intros Hf.
    apply (general "1"%char "2345" newline Hf); reflexivity.
  - intros c ds rest Hf Hd Hr. split; [exact (general c ds rest Hf Hd Hr)|].
    intros Hmax. rewrite (general c ds rest Hf Hd Hr).
    now rewrite Z.min_l.
  - intros content Hf Hne Hn.
    rewrite ReadFileContent_run,
      (counter_after_no_digit os _ _ content Hf Hne Hn).
    unfold open_warning. rewrite Hf, extend_nil. reflexivity.
  - intros line rest Hf Hl.
    rewrite (ReadFileContent_opened _ _ data w Hf)
      by (destruct line; discriminate).
    now rewrite first_line_until_newline, atoll_app_newline.
  - intros content Hf Hne Hl.
    rewrite (ReadFileContent_opened _ _ data w Hf Hne).
    now rewrite first_line_no_newline.
  - intros Hf. rewrite ReadFileContent_run.
    unfold counter_after, open_warning. rewrite Hf, extend_nil. reflexivity.
Qed.

End ReaderTexts.

(** * Further properties of the scan *)

Section ScanFacts.

Variable os : host_env.

Lemma for_each_ifa_no_ipv4 (l : list ifaddrs) :
  filter is_ipv4 l = [] ->
  forall (f : frame) (w : world),
    exists f' : frame, for_each_ifa os l f w = (Ret f', w).
Proof.
  induction l as [|ifa rest IH]; intros Hn f w.
  - now exists f.
  - cbn [filter] in Hn. destruct (is_ipv4 ifa) eqn:Hi; [discriminate|].
    cbn [for_each_ifa]. unfold is_ipv4 in Hi.
    assert (Hb : exists f1, loop_body os ifa f w = (Ret f1, w)).
    { unfold loop_body. destruct (ifa_addr ifa) as [sa|]; [|now exists f].
      destruct (getnameinfo os sa (host f) Pg.MAXPGPATH) as [ret_val host1].
      rewrite Hi. eexists. reflexivity. }
    destruct Hb as [f1 Hb]. rewrite (bind_ret _ _ _ _ _ Hb).
    now apply IH.
Qed.

(** An enumeration without any IPv4 node (no node at all, nodes without an
    address, nodes of other families such as IPv6 only) makes the scan
    return without a row and without a report, whatever the conversions of
    those addresses return; nothing is held afterwards. *)
Theorem scan_without_ipv4_node (l : list ifaddrs) (w : world) :
  os_getifaddrs os = Some l -> filter is_ipv4 l = [] ->
  ReadNetworkInformations os w = (Ret tt, w).
Proof.
  intros Hl Hn. unfold ReadNetworkInformations.
  erewrite bind_ret by (unfold getifaddrs; rewrite Hl; reflexivity).
  destruct (for_each_ifa_no_ipv4 l Hn initial_frame
              {| elog := elog w; tupstore := tupstore w;
                 open_files := open_files w; line_bufs := line_bufs w;
                 live_ifaddrs := S (live_ifaddrs w) |}) as [f' Hf].
  erewrite bind_ret by exact Hf.
  unfold freeifaddrs. destruct w. reflexivity.
Qed.

Lemma open_warning_level (file_name : string) :
  Forall (fun e => Pg.elevel e = Pg.WARNING) (open_warning os file_name)
  /\ (List.length (open_warning os file_name) <= 1)%nat.
Proof.
  unfold open_warning. destruct (os_file os file_name); cbn.
  - split; [constructor | lia].
  - split; [repeat constructor | lia].
Qed.

Lemma body_log_level (interface : string) :
  Forall (fun e => Pg.elevel e = Pg.WARNING) (body_log os interface)
  /\ (List.length (body_log os interface) <= 9)%nat.
Proof.
  unfold body_log, call_order. cbn [flat_map]. rewrite app_nil_r.
  repeat rewrite Forall_app. repeat rewrite length_app.
  pose proof (fun k => open_warning_level (counter_path k interface)) as H.
  pose proof (H LinkSpeed) as [? ?]. pose proof (H ReceiveBytes) as [? ?].
  pose proof (H TransmitBytes) as [? ?]. pose proof (H ReceivePackets) as [? ?].
  pose proof (H TransmitPackets) as [? ?]. pose proof (H ReceiveErrors) as [? ?].
  pose proof (H TransmitErrors) as [? ?]. pose proof (H ReceiveDropped) as [? ?].
  pose proof (H TransmitDropped) as [? ?].
  split; [repeat split; assumption | lia].
Qed.

Lemma emitted_log_level (nodes : list (ifaddrs * sockaddr)) :
  Forall (fun e => Pg.elevel e = Pg.WARNING)
    (flat_map (fun e => body_log os (ifa_name (fst e))) nodes)
  /\ (List.length (flat_map (fun e => body_log os (ifa_name (fst e))) nodes)
      <= 9 * List.length nodes)%nat.
Proof.
  induction nodes as [|e nodes [IH1 IH2]]; cbn [flat_map List.length].
  - split; [constructor | lia].
  - destruct (body_log_level (ifa_name (fst e))) as [H1 H2].
    rewrite Forall_app, length_app. split; [now split | lia].
Qed.

(** The two tiers of reports.  What a scan adds to the log is a run of
    WARNING reports, at most nine per stored row, followed by one ERROR
    report exactly when the scan is left by it, and by nothing when the scan
    returns.  Earlier log entries and rows are kept. *)
Theorem scan_reports (w : world) :
  (forall l, os_getifaddrs os = Some l -> forallb valid_ifa l = true) ->
  exists (warnings errors : list Pg.ErrorData) (rows : list HeapTuple),
    elog (snd (ReadNetworkInformations os w)) = elog w ++ warnings ++ errors
    /\ tupstore (snd (ReadNetworkInformations os w)) = tupstore w ++ rows
    /\ Forall (fun e => Pg.elevel e = Pg.WARNING) warnings
    /\ (List.length warnings <= 9 * List.length rows)%nat
    /\ match fst (ReadNetworkInformations os w) with
       | Ret _ => errors = []
       | Raise => exists e, errors = [e] /\ Pg.elevel e = Pg.ERROR
       end.
Proof.
  intros Hv. destruct (os_getifaddrs os) as [l|] eqn:Hl.
  - specialize (Hv l eq_refl).
    rewrite (ReadNetworkInformations_run os l w Hl Hv).
    destruct (emitted_log_level (emitted os l)) as [H1 H2].
    exists (flat_map (fun e => body_log os (ifa_name (fst e))) (emitted os l)).
    exists (match aborted os l with
            | Some sa => [conversion_error os sa]
            | None => []
            end), (scan_rows os l).
    replace (List.length (scan_rows os l)) with (List.length (emitted os l))
      by (unfold scan_rows; now rewrite length_map).
    unfold scan_log.
    destruct (aborted os l) as [sa|];
      cbn [fst snd extend holding_list elog tupstore].
    + split; [reflexivity|]. split; [reflexivity|].
      split; [assumption|]. split; [assumption|].
      exists (conversion_error os sa). split; reflexivity.
    + split; [reflexivity|]. split; [reflexivity|].
      split; [assumption|]. split; [assumption | reflexivity].
  - rewrite (ReadNetworkInformations_no_list os w Hl).
    exists [], [enumeration_error], []. cbn [fst snd extend elog tupstore].
    rewrite app_nil_r.
    split; [reflexivity|]. split; [reflexivity|].
    split; [constructor|]. split; [cbn; lia|].
    exists enumeration_error. split; reflexivity.
Qed.

Lemma emitted_converted (l : list ifaddrs) :
  Forall (fun e => ifa_addr (fst e) = Some (snd e)
                   /\ sa_family (snd e) = AF_INET
                   /\ gni_code os (snd e) = 0) (emitted os l).
Proof.
  induction l as [|ifa rest IH]; cbn [emitted]; [constructor|].
  destruct (ifa_addr ifa) as [sa|] eqn:Ha; [|exact IH].
  destruct (sa_family sa =? AF_INET) eqn:Hf; [|exact IH].
  destruct (gni_code os sa =? 0) eqn:Hc; [|constructor].
  constructor; [|exact IH].
  cbn [fst snd]. apply Z.eqb_eq in Hf. apply Z.eqb_eq in Hc. auto.
Qed.

Lemma gni_code_ok (sa : sockaddr) :
  gni_code os sa = 0 ->
  fst (os_getnameinfo os sa) = 0
  /\ (String.length (snd (os_getnameinfo os sa)) < Pg.MAXPGPATH)%nat.
Proof.
  unfold gni_code, getnameinfo.
  destruct (os_getnameinfo os sa) as [code text]. cbn [fst snd].
  destruct (code =? 0) eqn:Ec.
  - destruct (String.length text <? Pg.MAXPGPATH)%nat eqn:El; cbn [fst].
    + intros _. apply Z.eqb_eq in Ec. apply Nat.ltb_lt in El. auto.
    + discriminate.
  - cbn [fst]. intros ->. discriminate.
Qed.

(** Each row carries the data of its own node.  The rows a scan adds match,
    in order, the first IPv4 nodes of the enumeration: the name column is
    the node's name, the IPv4 column is the text the conversion delivered
    for the node's own address (although the conversion buffer is reused
    from node to node without being cleared), and the IPv6 column is always
    the empty text. *)
Theorem scan_rows_carry_own_address (l : list ifaddrs) (w : world) :
  os_getifaddrs os = Some l -> forallb valid_ifa l = true ->
  exists (k : nat) (rows : list HeapTuple),
    tupstore (snd (ReadNetworkInformations os w)) = tupstore w ++ rows
    /\ Forall2
         (fun row ifa =>
            t_interface_name row = Some (Pg.TextDatum (ifa_name ifa))
            /\ t_ipv6_address row = Some (Pg.TextDatum EmptyString)
            /\ exists sa,
                 ifa_addr ifa = Some sa
                 /\ fst (os_getnameinfo os sa) = 0
                 /\ t_ipv4_address row
                    = Some (Pg.TextDatum
                              (C.c_str (list_ascii_of_string
                                          (snd (os_getnameinfo os sa))))))
         rows (firstn k (filter is_ipv4 l)).
Proof.
  intros Hl Hv. destruct (emitted_are_ipv4 os l) as [k Hk].
  exists k, (scan_rows os l). rewrite <- Hk.
  split.
  - rewrite (ReadNetworkInformations_run os l w Hl Hv).
    destruct (aborted os l); reflexivity.
  - unfold scan_rows. clear Hk. pose proof (emitted_converted l) as Hc.
    induction Hc as [|[ifa sa] nodes (Ha & _ & Hg) _ IH]; cbn [map].
    + constructor.
    + constructor; [|exact IH].
      cbn [fst snd] in *. repeat split.
      exists sa. destruct (gni_code_ok sa Hg) as [H0 _]. auto.
Qed.

End ScanFacts.

(** * Counter files and columns *)

Lemma list_ascii_app (s t : string) :
  list_ascii_of_string (s ++ t)
  = list_ascii_of_string s ++ list_ascii_of_string t.
Proof. induction s as [|c s IH]; cbn; [reflexivity | now rewrite IH]. Qed.

Lemma list_ascii_inj (s t : string) :
  list_ascii_of_string s = list_ascii_of_string t -> s = t.
Proof.
  intros H. apply (f_equal string_of_list_ascii) in H.
  now rewrite !string_of_list_ascii_of_string in H.
Qed.

Lemma counter_path_inj (k1 k2 : counter_kind) (n1 n2 : string) :
  counter_path k1 n1 = counter_path k2 n2 -> k1 = k2 /\ n1 = n2.
Proof.
  intros H. apply (f_equal list_ascii_of_string) in H.
  destruct k1, k2; unfold counter_path in H;
    rewrite !list_ascii_app in H; apply app_inv_head in H;
    try (apply app_inv_tail in H; apply list_ascii_inj in H;
         split; [reflexivity | exact H]);
    exfalso; apply (f_equal (@rev ascii)) in H;
    rewrite !rev_app_distr in H; cbn in H; discriminate H.
Qed.


Lemma gni_code_ext (os1 os2 : host_env) (sa : sockaddr) :
  os_getnameinfo os1 = os_getnameinfo os2 -> gni_code os1 sa = gni_code os2 sa.
Proof. intros H. unfold gni_code, getnameinfo. now rewrite H. Qed.

Lemma emitted_ext (os1 os2 : host_env) (l : list ifaddrs) :
  os_getnameinfo os1 = os_getnameinfo os2 ->
  emitted os1 l = emitted os2 l /\ aborted os1 l = aborted os2 l.
Proof.
  intros H. induction l as [|ifa rest [IH1 IH2]]; cbn [emitted aborted];
    [now split|].
  destruct (ifa_addr ifa) as [sa|]; [|now split].
  rewrite (gni_code_ext os1 os2 sa H), IH1, IH2. now split.
Qed.

Lemma counter_after_ext (os1 os2 : host_env) (path : string) (data : Z) :
  os_file os1 path = os_file os2 path ->
  counter_after os1 path data = counter_after os2 path data.
Proof. intros H. unfold counter_after. now rewrite H. Qed.

Lemma Forall2_map_same {A B} (R : B -> B -> Prop) (f g : A -> B)
    (l : list A) :
  (forall x, In x l -> R (f x) (g x)) -> Forall2 R (map f l) (map g l).
Proof.
  induction l as [|x l IH]; intros H; cbn [map]; constructor.
  - apply H. now left.
  - apply IH. intros y Hy. apply H. now right.
Qed.

(** Isolation of the counters.  When two hosts differ in the file of one
    counter of one interface only, their scans end the same way and store
    rows that agree in every column, except the column of that counter in
    the rows of that interface. *)
Theorem counter_file_feeds_one_column (os1 os2 : host_env)
    (l : list ifaddrs) (k : counter_kind) (interface : string) (w : world) :
  os_getifaddrs os1 = Some l -> os_getifaddrs os2 = Some l ->
  forallb valid_ifa l = true ->
  os_getnameinfo os1 = os_getnameinfo os2 ->
  (forall path : string,
      path <> counter_path k interface -> os_file os1 path = os_file os2 path) ->
  fst (ReadNetworkInformations os1 w) = fst (ReadNetworkInformations os2 w)
  /\ exists rows1 rows2 : list HeapTuple,
       tupstore (snd (ReadNetworkInformations os1 w)) = tupstore w ++ rows1
       /\ tupstore (snd (ReadNetworkInformations os2 w)) = tupstore w ++ rows2
       /\ Forall2
            (fun r1 r2 =>
               forall a : Anum,
                 a <> counter_column k \/ row_name r1 <> interface ->
                 column r1 a = column r2 a)
            rows1 rows2.
Proof.
  intros H1 H2 Hv Hg Hfiles.
  destruct (emitted_ext os1 os2 l Hg) as [He Ha].
  rewrite (ReadNetworkInformations_run os1 l w H1 Hv).
  rewrite (ReadNetworkInformations_run os2 l w H2 Hv).
  rewrite Ha. split; [destruct (aborted os2 l); reflexivity|].
  exists (scan_rows os1 l), (scan_rows os2 l).
  split; [destruct (aborted os2 l); reflexivity|].
  split; [destruct (aborted os2 l); reflexivity|].
  unfold scan_rows. rewrite He. apply Forall2_map_same.
  intros [ifa sa] _ a Hdiff. cbn [fst snd].
  rewrite row_name_row_of in Hdiff.
  assert (Hc : forall k' : counter_kind,
             counter_column k' = a ->
             counter_after os1 (counter_path k' (ifa_name ifa)) 0
             = counter_after os2 (counter_path k' (ifa_name ifa)) 0).
  { intros k' Hk'. apply counter_after_ext, Hfiles. intros Heq.
    apply counter_path_inj in Heq. destruct Heq as [-> Hname].
    destruct Hdiff as [Hd | Hd]; [now apply Hd | now apply Hd]. }
  destruct a; cbn [column row_of t_interface_name t_ipv4_address
    t_ipv6_address t_speed_mbps t_tx_bytes t_tx_packets t_tx_errors
    t_tx_dropped t_rx_bytes t_rx_packets t_rx_errors t_rx_dropped];
    try reflexivity.
  - unfold gni_text. now rewrite Hg.
  - now rewrite (Hc LinkSpeed eq_refl).
  - now rewrite (Hc TransmitBytes eq_refl).
  - now rewrite (Hc TransmitPackets eq_refl).
  - now rewrite (Hc TransmitErrors eq_refl).
  - now rewrite (Hc TransmitDropped eq_refl).
  - now rewrite (Hc ReceiveBytes eq_refl).
  - now rewrite (Hc ReceivePackets eq_refl).
  - now rewrite (Hc ReceiveErrors eq_refl).
  - now rewrite (Hc ReceiveDropped eq_refl).
Qed.

Section Warnings.

Variable os : host_env.

Lemma substring_length_le (n : nat) (s : string) :
  (String.length (substring 0 n s) <= n)%nat.
Proof.
  revert s. induction n as [|n IH]; intros [|c s]; cbn; try lia.
  specialize (IH s). lia.
Qed.

(** The path a warning names is cut to MAXPGPATH - 1 characters, so the
    text of the report is bounded whatever the length of the file name
    is. *)
Theorem ReadFileContent_warning_is_bounded (file_name : string) (data : Z)
    (w : world) (e : Pg.ErrorData) :
  In e (elog (snd (ReadFileContent os file_name data w))) ->
  In e (elog w)
  \/ (Pg.elevel e = Pg.WARNING
      /\ (String.length (Pg.message e) < 49 + Pg.MAXPGPATH)%nat).
Proof.
  rewrite ReadFileContent_run. cbn [snd extend elog]. intros H.
  apply in_app_or in H. destruct H as [H | H]; [now left | right].
  unfold open_warning in H.
  destruct (os_file os file_name); [contradiction|].
  destruct H as [<- | []]. split; [reflexivity|].
  cbn [Pg.message]. rewrite !CFacts.string_length_app.
  unfold C.snprintf_s.
  pose proof (substring_length_le (Pg.MAXPGPATH - 1) file_name) as Hs.
  cbn [String.length]. unfold Pg.MAXPGPATH in *. lia.
Qed.

End Warnings.

(** * Scans of parts of an enumeration *)

Section Parts.

Variable os : host_env.

Lemma gni_code_with (l : list ifaddrs) (sa : sockaddr) :
  gni_code (with_ifaddrs os l) sa = gni_code os sa.
Proof. reflexivity. Qed.

Lemma scan_model_with (l l' : list ifaddrs) :
  emitted (with_ifaddrs os l) l' = emitted os l'
  /\ aborted (with_ifaddrs os l) l' = aborted os l'
  /\ scan_log (with_ifaddrs os l) l' = scan_log os l'
  /\ scan_rows (with_ifaddrs os l) l' = scan_rows os l'.
Proof.
  assert (He : emitted (with_ifaddrs os l) l' = emitted os l').
  { induction l' as [|ifa rest IH]; cbn [emitted]; [reflexivity|].
    now rewrite IH. }
  assert (Ha : aborted (with_ifaddrs os l) l' = aborted os l').
  { induction l' as [|ifa rest IH]; cbn [aborted]; [reflexivity|].
    now rewrite IH. }
  split; [exact He|]. split; [exact Ha|]. split.
  - unfold scan_log, body_log, open_warning, conversion_error.
    now rewrite He, Ha.
  - unfold scan_rows. rewrite He. reflexivity.
Qed.

Lemma ReadNetworkInformations_with (l : list ifaddrs) (w : world) :
  forallb valid_ifa l = true ->
  ReadNetworkInformations (with_ifaddrs os l) w
  = match aborted os l with
    | Some _ => (Raise, extend (scan_log os l) (scan_rows os l) (holding_list w))
    | None => (Ret tt, extend (scan_log os l) (scan_rows os l) w)
    end.
Proof.
  intros Hv.
  rewrite (ReadNetworkInformations_run (with_ifaddrs os l) l w eq_refl Hv).
  destruct (scan_model_with l l) as (_ & -> & -> & ->). reflexivity.
Qed.

Lemma emitted_filter (l : list ifaddrs) :
  emitted os (filter is_ipv4 l) = emitted os l
  /\ aborted os (filter is_ipv4 l) = aborted os l.
Proof.
  induction l as [|ifa rest [IH1 IH2]]; [now split|].
  cbn [filter]. destruct (is_ipv4 ifa) eqn:Hi; unfold is_ipv4 in Hi;
    cbn [emitted aborted];
    destruct (ifa_addr ifa) as [sa|]; try discriminate;
    rewrite ?Hi, ?IH1, ?IH2; now split.
Qed.

(** Nodes that are not IPv4 nodes are inert: a scan of an enumeration and a
    scan of the same enumeration with every node without an address and
    every node of another family removed end the same way, with the same
    rows and the same reports. *)
Theorem scan_ignores_other_nodes (l : list ifaddrs) (w : world) :
  forallb valid_ifa l = true ->
  ReadNetworkInformations (with_ifaddrs os l) w
  = ReadNetworkInformations (with_ifaddrs os (filter is_ipv4 l)) w.
Proof.
  intros Hv.
  assert (Hv' : forallb valid_ifa (filter is_ipv4 l) = true).
  { rewrite forallb_forall in *. intros x Hx. apply Hv.
    apply filter_In in Hx. tauto. }
  rewrite !ReadNetworkInformations_with by assumption.
  destruct (emitted_filter l) as [He Ha].
  unfold scan_log, scan_rows. now rewrite He, Ha.
Qed.

Lemma emitted_app (l1 l2 : list ifaddrs) :
  aborted os l1 = None ->
  emitted os (l1 ++ l2) = emitted os l1 ++ emitted os l2
  /\ aborted os (l1 ++ l2) = aborted os l2.
Proof.
  induction l1 as [|ifa rest IH]; cbn [app emitted aborted]; [now split|].
  destruct (ifa_addr ifa) as [sa|]; [|exact IH].
  destruct (sa_family sa =? AF_INET); [|exact IH].
  destruct (gni_code os sa =? 0); [|discriminate].
  intros H. destruct (IH H) as [-> ->]. now split.
Qed.

(** Scanning composes: when the scan of a first part of an enumeration
    returns, the scan of the whole enumeration does what the scan of the
    first part followed by the scan of the rest does, rows, reports, outcome
    and resources alike. *)
Theorem scan_of_concatenation (l1 l2 : list ifaddrs) (w : world) :
  forallb valid_ifa (l1 ++ l2) = true ->
  fst (ReadNetworkInformations (with_ifaddrs os l1) w) = Ret tt ->
  ReadNetworkInformations (with_ifaddrs os (l1 ++ l2)) w
  = ReadNetworkInformations (with_ifaddrs os l2)
      (snd (ReadNetworkInformations (with_ifaddrs os l1) w)).
Proof.
  intros Hv. pose proof Hv as Hv'. rewrite forallb_app in Hv'.
  apply andb_true_iff in Hv'. destruct Hv' as [Hv1 Hv2].
  rewrite !ReadNetworkInformations_with by assumption.
  destruct (aborted os l1) eqn:Hab; [discriminate|]. intros _.
  destruct (emitted_app l1 l2 Hab) as [He Ha].
  cbn [snd]. unfold scan_log, scan_rows. rewrite He, Ha, Hab.
  rewrite flat_map_app, map_app, app_nil_r.
  destruct (aborted os l2).
  - f_equal. unfold extend, holding_list.
    cbn [elog tupstore open_files line_bufs live_ifaddrs].
    now rewrite !app_assoc.
  - f_equal. rewrite extend_extend. now rewrite !app_assoc.
Qed.

End Parts.

(** * Instances of the further properties *)

(** The text of 12345 and a newline reads back as 12345. *)
Lemma ReadFileContent_reads_back_decimal_virtual :
  ReadFileContent virtual_host "/sys/class/net/veth0/statistics/rx_bytes" 0
    empty_world = (Ret (Z.min 12345 C.LLONG_MAX), empty_world)
  /\ (12345 <= C.LLONG_MAX ->
      ReadFileContent virtual_host "/sys/class/net/veth0/statistics/rx_bytes"
        0 empty_world = (Ret 12345, empty_world)).
Proof.
  apply (ReadFileContent_reads_back_decimal virtual_host
           "/sys/class/net/veth0/statistics/rx_bytes" EmptyString 0 12345
           empty_world); [lia | reflexivity].
Defined.

(** A second line is not read, and an empty first line reads 0. *)
Lemma ReadFileContent_reads_first_line_only_padded :
  ReadFileContent padded_host "/sys/class/net/eth0/statistics/rx_bytes" 0
    empty_world = (Ret (C.to_uint64 (C.atoll "7")), empty_world)
  /\ ReadFileContent padded_host "/sys/class/net/eth0/statistics/tx_bytes" 5
       empty_world = (Ret (C.to_uint64 (C.atoll EmptyString)), empty_world).
Proof.
  split.
  - apply (ReadFileContent_reads_first_line_only padded_host
             "/sys/class/net/eth0/statistics/rx_bytes" "7"
             ("8" ++ newline)%string 0 empty_world); reflexivity.
  - apply (ReadFileContent_reads_first_line_only padded_host
             "/sys/class/net/eth0/statistics/tx_bytes" EmptyString "42" 5
             empty_world); reflexivity.
Defined.

(** Two blanks before 1000. *)
Lemma ReadFileContent_skips_leading_blanks_padded :
  ReadFileContent padded_host "/sys/class/net/eth0/speed" 0 empty_world
  = (Ret (Z.min (decimal_value "1000") C.LLONG_MAX), empty_world).
Proof.
  apply (ReadFileContent_skips_leading_blanks padded_host
           "/sys/class/net/eth0/speed" "  " newline "1"%char "000" 0
           empty_world); reflexivity.
Defined.

(** The scan of [ipv6_only_host] changes nothing. *)
Lemma scan_without_ipv4_node_ipv6_only :
  ReadNetworkInformations ipv6_only_host empty_world = (Ret tt, empty_world).
Proof.
  apply (scan_without_ipv4_node ipv6_only_host
           [packet_node "lo";
            {| ifa_name := "tun0"; ifa_addr := None |};
            {| ifa_name := "eth0";
               ifa_addr := Some {| sa_family := AF_INET6; sa_data := [] |} |}]);
    reflexivity.
Defined.

(** The reports of the scan of [failing_host]. *)
Lemma scan_reports_failing :
  exists (warnings errors : list Pg.ErrorData) (rows : list HeapTuple),
    elog (snd (ReadNetworkInformations failing_host empty_world))
    = elog empty_world ++ warnings ++ errors
    /\ tupstore (snd (ReadNetworkInformations failing_host empty_world))
       = tupstore empty_world ++ rows
    /\ Forall (fun e => Pg.elevel e = Pg.WARNING) warnings
    /\ (List.length warnings <= 9 * List.length rows)%nat
    /\ match fst (ReadNetworkInformations failing_host empty_world) with
       | Ret _ => errors = []
       | Raise => exists e, errors = [e] /\ Pg.elevel e = Pg.ERROR
       end.
Proof.
  apply (scan_reports failing_host empty_world).
  intros l H. injection H as <-. reflexivity.
Defined.

(** The rows of [alias_host] carry the two addresses of eth0. *)
Lemma scan_rows_carry_own_address_alias :
  exists (k : nat) (rows : list HeapTuple),
    tupstore (snd (ReadNetworkInformations alias_host empty_world))
    = tupstore empty_world ++ rows
    /\ Forall2
         (fun row ifa =>
            t_interface_name row = Some (Pg.TextDatum (ifa_name ifa))
            /\ t_ipv6_address row = Some (Pg.TextDatum EmptyString)
            /\ exists sa,
                 ifa_addr ifa = Some sa
                 /\ fst (os_getnameinfo alias_host sa) = 0
                 /\ t_ipv4_address row
                    = Some (Pg.TextDatum
                              (C.c_str (list_ascii_of_string
                                          (snd (os_getnameinfo alias_host
                                                  sa))))))
         rows
         (firstn k
            (filter is_ipv4
               [ipv4_node "eth0" [10; 0; 0; 5];
                ipv4_node "eth0" [10; 0; 0; 6]])).
Proof.
  apply (scan_rows_carry_own_address alias_host); reflexivity.
Defined.

(** [plain_host] and [plain_host_tx] differ in the transmitted-bytes file
    of eth0 only. *)
Lemma counter_file_feeds_one_column_plain :
  fst (ReadNetworkInformations plain_host empty_world)
  = fst (ReadNetworkInformations plain_host_tx empty_world)
  /\ exists rows1 rows2 : list HeapTuple,
       tupstore (snd (ReadNetworkInformations plain_host empty_world))
       = tupstore empty_world ++ rows1
       /\ tupstore (snd (ReadNetworkInformations plain_host_tx empty_world))
          = tupstore empty_world ++ rows2
       /\ Forall2
            (fun r1 r2 =>
               forall a : Anum,
                 a <> counter_column TransmitBytes \/ row_name r1 <> "eth0" ->
                 column r1 a = column r2 a)
            rows1 rows2.
Proof.
  apply (counter_file_feeds_one_column plain_host plain_host_tx
           [packet_node "lo"; packet_node "eth0";
            ipv4_node "eth0" [10; 0; 0; 5]] TransmitBytes "eth0" empty_world);
    try reflexivity.
  intros path Hne. cbn [os_file plain_host plain_host_tx lookup_file].
  destruct (String.eqb_spec "/sys/class/net/eth0/statistics/tx_bytes" path)
    as [E | E]; [|reflexivity].
  exfalso. apply Hne. symmetry. exact E.
Defined.


(** The warning for the missing speed file of eth0 on [plain_host]. *)
Lemma ReadFileContent_warning_is_bounded_plain :
  In (Pg.mkErrorData Pg.WARNING Pg.errcode_for_file_access
        "can not open file /sys/class/net/eth0/speed for reading network statistics")
    (elog empty_world)
  \/ (Pg.elevel
        (Pg.mkErrorData Pg.WARNING Pg.errcode_for_file_access
           "can not open file /sys/class/net/eth0/speed for reading network statistics")
      = Pg.WARNING
      /\ (String.length
            (Pg.message
               (Pg.mkErrorData Pg.WARNING Pg.errcode_for_file_access
                  "can not open file /sys/class/net/eth0/speed for reading network statistics"))
          < 49 + Pg.MAXPGPATH)%nat).
Proof.
  apply (ReadFileContent_warning_is_bounded plain_host
           "/sys/class/net/eth0/speed" 0 empty_world).
  vm_compute. left. reflexivity.
Defined.

(** The nodes of lo and the packet node of eth0 play no part on
    [plain_host]. *)
Lemma scan_ignores_other_nodes_plain :
  ReadNetworkInformations
    (with_ifaddrs plain_host
       [packet_node "lo"; packet_node "eth0"; ipv4_node "eth0" [10; 0; 0; 5]])
    empty_world
  = ReadNetworkInformations
      (with_ifaddrs plain_host
         (filter is_ipv4
            [packet_node "lo"; packet_node "eth0";
             ipv4_node "eth0" [10; 0; 0; 5]]))
      empty_world.
Proof.
  apply (scan_ignores_other_nodes plain_host). reflexivity.
Defined.

(** The scan of [failing_host] is the scan of eth0 followed by the scan of
    eth1 and eth2. *)
Lemma scan_of_concatenation_failing :
  ReadNetworkInformations
    (with_ifaddrs failing_host
       ([ipv4_node "eth0" [10; 0; 0; 5]]
          ++ [ipv4_node "eth1" [10; 0; 0; 7]; ipv4_node "eth2" [10; 0; 0; 9]]))
    empty_world
  = ReadNetworkInformations
      (with_ifaddrs failing_host
         [ipv4_node "eth1" [10; 0; 0; 7]; ipv4_node "eth2" [10; 0; 0; 9]])
      (snd (ReadNetworkInformations
              (with_ifaddrs failing_host [ipv4_node "eth0" [10; 0; 0; 5]])
              empty_world)).
Proof.
  apply (scan_of_concatenation failing_host); reflexivity.
Defined.

(** C6, as stated, fails on [huge_host].  The received-bytes file starts
    with the run of digits of 2^64 - 1 and the reader yields LLONG_MAX, not
    the value of the run; the transmitted-bytes file opens and is empty,
    and the reader yields the value passed in, 7, not 0. *)
Lemma C6_large_prefix_is_clamped :
  os_file huge_host "/sys/class/net/eth0/statistics/rx_bytes"
  = Some ("18446744073709551615" ++ newline)%string
  /\ decimal_value "18446744073709551615" = 18446744073709551615
  /\ ReadFileContent huge_host "/sys/class/net/eth0/statistics/rx_bytes" 0
       empty_world = (Ret 9223372036854775807, empty_world)
  /\ 9223372036854775807 <> 18446744073709551615
  /\ os_file huge_host "/sys/class/net/eth0/statistics/tx_bytes"
     = Some EmptyString
  /\ ReadFileContent huge_host "/sys/class/net/eth0/statistics/tx_bytes" 7
       empty_world = (Ret 7, empty_world)
  /\ 7 <> 0.
Proof.
  repeat apply conj; try (vm_compute; reflexivity); discriminate.
Qed.

(** C6, as amended, on the files of [virtual_host], [padded_host] and
    [huge_host]: 12345 and a newline; 123abc; abc and a newline; a second
    line; the digits of 2^64 - 1; an empty file. *)
Lemma C6_permissive_base10_parse_samples :
  ReadFileContent virtual_host "/sys/class/net/veth0/statistics/rx_bytes" 0
    empty_world = (Ret 12345, empty_world)
  /\ ReadFileContent virtual_host "/sys/class/net/veth0/statistics/tx_bytes" 0
       empty_world = (Ret 123, empty_world)
  /\ ReadFileContent virtual_host "/sys/class/net/veth0/statistics/rx_errors" 7
       empty_world = (Ret 0, empty_world)
  /\ ReadFileContent padded_host "/sys/class/net/eth0/statistics/tx_bytes" 5
       empty_world = (Ret (C.to_uint64 (C.atoll EmptyString)), empty_world)
  /\ ReadFileContent huge_host "/sys/class/net/eth0/statistics/rx_bytes" 0
       empty_world
     = (Ret (Z.min (decimal_value "18446744073709551615") C.LLONG_MAX),
        empty_world)
  /\ ReadFileContent huge_host "/sys/class/net/eth0/statistics/tx_bytes" 7
       empty_world = (Ret 7, empty_world).
Proof.
  repeat apply conj.
  - apply (proj1 (C6_permissive_base10_parse virtual_host
                    "/sys/class/net/veth0/statistics/rx_bytes" 0 empty_world)).
    reflexivity.
  - apply (proj2 (proj1 (proj2 (C6_permissive_base10_parse virtual_host
                                  "/sys/class/net/veth0/statistics/tx_bytes"
                                  0 empty_world))
                    "1"%char "23" "abc" eq_refl eq_refl eq_refl)).
    vm_compute. discriminate.
  - apply (proj1 (proj2 (proj2 (C6_permissive_base10_parse virtual_host
                                  "/sys/class/net/veth0/statistics/rx_errors"
                                  7 empty_world)))
             ("abc" ++ newline)%string);
      [reflexivity | discriminate | reflexivity].
  - apply (proj1 (proj2 (proj2 (proj2 (C6_permissive_base10_parse padded_host
                                         "/sys/class/net/eth0/statistics/tx_bytes"
                                         5 empty_world))))
             EmptyString "42"); reflexivity.
  - apply (proj1 (proj1 (proj2 (C6_permissive_base10_parse huge_host
                                  "/sys/class/net/eth0/statistics/rx_bytes"
                                  0 empty_world))
                    "1"%char "8446744073709551615" newline
                    eq_refl eq_refl eq_refl)).
  - apply (proj2 (proj2 (proj2 (proj2 (proj2
             (C6_permissive_base10_parse huge_host
                "/sys/class/net/eth0/statistics/tx_bytes" 7 empty_world)))))).
    reflexivity.
Defined.

(** * Counter files of well-formed interfaces *)


Lemma flat_map_ext_In {A B} (f g : A -> list B) (l : list A) :
  (forall x, In x l -> f x = g x) -> flat_map f l = flat_map g l.
Proof.
  induction l as [|x l IH]; intros H; cbn [flat_map]; [reflexivity|].
  rewrite (H x (or_introl eq_refl)), IH; [reflexivity|].
  intros y Hy. apply H. now right.
Qed.

Lemma flat_map_fst {A B C} (g : A -> list C) (l : list (A * B)) :
  flat_map (fun e => g (fst e)) l = flat_map g (map fst l).
Proof.
  induction l as [|e l IH]; cbn [flat_map map]; [reflexivity|].
  now rewrite IH.
Qed.

(** In a scan that returns, the missing counter files are reported exactly,
    in number and in order: what the scan adds to the log is, for each IPv4
    node in the order of the enumeration and for each counter in the order
    in which the loop calls the readers, one WARNING that names the file
    when the file cannot be opened, and nothing when it can. *)
Theorem scan_warns_for_each_missing_file (os : host_env) (l : list ifaddrs)
    (w : world) :
  os_getifaddrs os = Some l -> forallb valid_ifa l = true ->
  fst (ReadNetworkInformations os w) = Ret tt ->
  elog (snd (ReadNetworkInformations os w))
  = elog w
    ++ flat_map
         (fun ifa =>
            flat_map
              (fun k =>
                 match os_file os (counter_path k (ifa_name ifa)) with
                 | None =>
                     [Pg.mkErrorData Pg.WARNING Pg.errcode_for_file_access
                        ("can not open file "
                           ++ counter_path k (ifa_name ifa)
                           ++ " for reading network statistics")]
                 | Some _ => []
                 end)
              [LinkSpeed; ReceiveBytes; TransmitBytes; ReceivePackets;
               TransmitPackets; ReceiveErrors; TransmitErrors;
               ReceiveDropped; TransmitDropped])
         (filter is_ipv4 l).
Proof.
  intros Hl Hv. rewrite (ReadNetworkInformations_run os l w Hl Hv).
  destruct (aborted os l) eqn:Hab; [discriminate|]. intros _.
  cbn [snd extend elog]. unfold scan_log. rewrite Hab, app_nil_r.
  f_equal.
  rewrite (flat_map_fst (fun ifa => body_log os (ifa_name ifa))),
    (emitted_all os l Hab).
  apply flat_map_ext_In. intros ifa Hin.
  unfold body_log, call_order. apply flat_map_ext_In. intros k _.
  unfold open_warning. rewrite CFacts.snprintf_fits; [reflexivity|].
  apply counter_path_fits.
  apply filter_In in Hin. destruct Hin as [Hin _].
  rewrite forallb_forall in Hv. specialize (Hv ifa Hin).
  unfold valid_ifa in Hv. apply andb_true_iff in Hv.
  destruct Hv as [_ Hv]. now apply Nat.ltb_lt in Hv.
Qed.


(** The scan of [alias_host], where eth0 has two addresses and no counter
    file: nine reports for the first node, then the same nine for the
    second. *)
Lemma scan_warns_for_each_missing_file_alias :
  elog (snd (ReadNetworkInformations alias_host empty_world))
  = elog empty_world
    ++ flat_map
         (fun ifa =>
            flat_map
              (fun k =>
                 match os_file alias_host (counter_path k (ifa_name ifa)) with
                 | None =>
                     [Pg.mkErrorData Pg.WARNING Pg.errcode_for_file_access
                        ("can not open file "
                           ++ counter_path k (ifa_name ifa)
                           ++ " for reading network statistics")]
                 | Some _ => []
                 end)
              [LinkSpeed; ReceiveBytes; TransmitBytes; ReceivePackets;
               TransmitPackets; ReceiveErrors; TransmitErrors;
               ReceiveDropped; TransmitDropped])
         (filter is_ipv4
            [ipv4_node "eth0" [10; 0; 0; 5]; ipv4_node "eth0" [10; 0; 0; 6]]).
Proof.
  apply (scan_warns_for_each_missing_file alias_host); reflexivity.
Defined.
